(** * Server lifecycle engine of the VM lifecycle API

    A shallow embedding of [app/services/server_service.py] (the lifecycle
    engine), [app/infra/openstack/mock_client.py] (the reference compute
    backend), [app/schemas/server.py] and [app/schemas/common.py] (request
    and response schemas) and [app/core/exceptions.py] (the error taxonomy),
    followed by the properties of the state machine.

    Conventions of the embedding:
    - the three database tables are finite maps keyed by their primary key
      (column [id]);
    - a coroutine that reads or writes the session is a function from the
      session to a result and the session it leaves behind;
    - [raise] is the [Raise] result; nothing after it runs;
    - the wall clock, the database clock, the UUID generator and the random
      generator are read from an explicit environment record. *)

From Stdlib Require Import ZArith String Ascii List Lia.
From stdpp Require Import gmap strings list fin_maps sorting pretty.

Local Open Scope string_scope.
Local Open Scope Z_scope.

(** ** app/models *)

Module ServerStatus.

(** [class ServerStatus(str, enum.Enum)] *)
Inductive t : Set :=
| BUILD | ACTIVE | SHUTOFF | REBOOT | RESIZE | VERIFY_RESIZE | ERROR | DELETED.

(** The [.value] of a member. *)
Definition value (s : t) : string :=
  match s with
  | BUILD => "BUILD"
  | ACTIVE => "ACTIVE"
  | SHUTOFF => "SHUTOFF"
  | REBOOT => "REBOOT"
  | RESIZE => "RESIZE"
  | VERIFY_RESIZE => "VERIFY_RESIZE"
  | ERROR => "ERROR"
  | DELETED => "DELETED"
  end.

#[global] Instance eq_dec : EqDecision t.
Proof. solve_decision. Defined.

Definition to_nat (s : t) : nat :=
  match s with
  | BUILD => 0 | ACTIVE => 1 | SHUTOFF => 2 | REBOOT => 3
  | RESIZE => 4 | VERIFY_RESIZE => 5 | ERROR => 6 | DELETED => 7
  end%nat.

Definition of_nat (n : nat) : option t :=
  match n with
  | 0 => Some BUILD | 1 => Some ACTIVE | 2 => Some SHUTOFF | 3 => Some REBOOT
  | 4 => Some RESIZE | 5 => Some VERIFY_RESIZE | 6 => Some ERROR
  | 7 => Some DELETED | _ => None
  end%nat.

#[global] Instance countable : Countable t.
Proof.
  refine (inj_countable to_nat of_nat _).
  intros []; reflexivity.
Defined.

End ServerStatus.

Module Server.

(** A row of table [servers]. Every column but [ip_address] is NOT NULL;
    timestamps are seconds on the time line. *)
Record t : Type := mk {
  id : string;
  name : string;
  status : ServerStatus.t;
  flavor_id : string;
  image_id : string;
  ip_address : option string;
  created_at : Z;
  updated_at : Z
}.

End Server.

Module Flavor.

Record t : Type := mk {
  id : string;
  name : string;
  vcpus : Z;
  ram_mb : Z;
  disk_gb : Z
}.

End Flavor.

Module Image.

Record t : Type := mk {
  id : string;
  name : string;
  os_distro : string;
  min_disk_gb : Z;
  size_bytes : Z;
  status : string
}.

End Image.

(** ** app/infra/openstack/base.py *)

Module ServerRecord.

(** [@dataclass class ServerRecord] *)
Record t : Type := mk {
  id : string;
  name : string;
  status : ServerStatus.t;
  flavor_id : string;
  image_id : string;
  ip_address : option string;
  created_at : Z;
  updated_at : Z
}.

End ServerRecord.

Module FlavorRecord.

Record t : Type := mk {
  id : string;
  name : string;
  vcpus : Z;
  ram_mb : Z;
  disk_gb : Z
}.

End FlavorRecord.

Module ImageRecord.

Record t : Type := mk {
  id : string;
  name : string;
  os_distro : string;
  min_disk_gb : Z;
  size_bytes : Z;
  status : string
}.

End ImageRecord.

(** ** app/core/exceptions.py *)

Module Exceptions.

(** The application exceptions, the builtin [ValueError] the backend
    raises, the driver's [IntegrityError] on a primary-key clash, the
    framework's [RequestValidationError] on a body the schema refuses, and
    the builtin [OverflowError] of the SQLite driver on a query parameter
    beyond the signed 64-bit range. *)
Inductive exn : Type :=
| ServerNotFoundError (server_id : string)
| FlavorNotFoundError (flavor_id : string)
| ImageNotFoundError (image_id : string)
| InvalidStateTransitionError (current_status action : string)
| ServerDeletedError (server_id : string)
| ValueError (msg : string)
| IntegrityError
| RequestValidationError (msg : string)
| OverflowError.

#[global] Instance exn_eq_dec : EqDecision exn.
Proof. solve_decision. Defined.

(** Class attribute [error_code]; the last four are not [AppException]s
    and get the code their handler writes. *)
Definition error_code (e : exn) : string :=
  match e with
  | ServerNotFoundError _ => "SERVER_NOT_FOUND"
  | FlavorNotFoundError _ => "FLAVOR_NOT_FOUND"
  | ImageNotFoundError _ => "IMAGE_NOT_FOUND"
  | InvalidStateTransitionError _ _ => "INVALID_STATE_TRANSITION"
  | ServerDeletedError _ => "SERVER_DELETED"
  | ValueError _ | IntegrityError | OverflowError => "INTERNAL_ERROR"
  | RequestValidationError _ => "VALIDATION_ERROR"
  end.

(** Class attribute [status_code], and the status the handlers of
    [register_exception_handlers] answer with for the other exceptions. *)
Definition status_code (e : exn) : Z :=
  match e with
  | ServerNotFoundError _ | FlavorNotFoundError _ | ImageNotFoundError _ => 404
  | InvalidStateTransitionError _ _ | ServerDeletedError _ => 409
  | ValueError _ | IntegrityError | OverflowError => 500
  | RequestValidationError _ => 422
  end.

(** [self.message], as the constructors format it. *)
Definition message (e : exn) : string :=
  match e with
  | ServerNotFoundError server_id => "Server " +:+ server_id +:+ " not found"
  | FlavorNotFoundError flavor_id => "Flavor " +:+ flavor_id +:+ " not found"
  | ImageNotFoundError image_id => "Image " +:+ image_id +:+ " not found"
  | InvalidStateTransitionError current_status action =>
      "Cannot perform action '" +:+ action +:+ "' on server in status '"
        +:+ current_status +:+ "'"
  | ServerDeletedError server_id =>
      "Server " +:+ server_id +:+ " has been deleted and cannot be modified"
  | ValueError msg => msg
  | IntegrityError | OverflowError => "An unexpected error occurred"
  | RequestValidationError _ => "Request validation failed"
  end.

(** [self.details]: [None], or the dictionary the constructor passes, in
    insertion order. *)
Definition details (e : exn) : option (list (string * string)) :=
  match e with
  | InvalidStateTransitionError current_status action =>
      Some [("current_status", current_status); ("action", action)]
  | _ => None
  end.

End Exceptions.
Export Exceptions.

(** ** Coroutines over the request's database session *)

(** The tables the session reads and writes, keyed by primary key. *)
Record Session : Type := mkSession {
  servers : gmap string Server.t;
  flavors : gmap string Flavor.t;
  images : gmap string Image.t
}.

(** What the outside world answers during one request. *)
Record Env : Type := mkEnv {
  utc_now : Z;       (* datetime.now(UTC) *)
  db_now : Z;        (* func.now(), evaluated by the database *)
  uuid4 : string;    (* str(uuid.uuid4()) *)
  draw : Z           (* the random generator's raw draw *)
}.

Inductive outcome (A : Type) : Type :=
| Return (a : A)
| Raise (e : exn).
Arguments Return {A} a.
Arguments Raise {A} e.

Definition io (A : Type) : Type := Session -> outcome A * Session.

Definition ret {A} (a : A) : io A := fun db => (Return a, db).
Definition raise {A} (e : exn) : io A := fun db => (Raise e, db).
Definition bind {A B} (m : io A) (k : A -> io B) : io B :=
  fun db =>
    match m db with
    | (Return a, db') => k a db'
    | (Raise e, db') => (Raise e, db')
    end.
Definition query {A} (f : Session -> A) : io A := fun db => (Return (f db), db).
Definition set_servers (f : gmap string Server.t -> gmap string Server.t) : io unit :=
  fun db => (Return tt, mkSession (f (servers db)) (flavors db) (images db)).

#[global] Instance io_ret : MRet io := @ret.
#[global] Instance io_bind : MBind io := fun A B k m => bind m k.

(** Python's truth value of [str | None]. *)
Definition truthy (o : option string) : bool :=
  match o with
  | None => false
  | Some s => negb (String.eqb s "")
  end.

(** ** app/schemas/server.py *)

Module ServerCreate.
Record t : Type := mk { name : string; flavor_id : string; image_id : string }.
End ServerCreate.

Module ServerUpdate.
Record t : Type := mk { name : option string }.
End ServerUpdate.

(** [ActionType = Literal["start", "stop", "reboot", "resize"]] *)
Definition ActionType : list string := ["start"; "stop"; "reboot"; "resize"].

Module ServerAction.

Record t : Type := mk { action : string; flavor_id : option string }.

(** [@model_validator(mode="after")] *)
Definition validate_resize_requires_flavor (self : t) : outcome t :=
  if String.eqb (action self) "resize" && negb (truthy (flavor_id self)) then
    Raise (RequestValidationError "flavor_id is required for resize action")
  else if negb (String.eqb (action self) "resize")
          && bool_decide (flavor_id self <> None) then
    Raise (RequestValidationError "flavor_id is only allowed for resize action")
  else Return self.

(** Construction of the model from a request body: the field [action]
    must be one of the literals, then the model validator runs. *)
Definition model_validate (action : string) (flavor_id : option string) : outcome t :=
  if bool_decide (action ∈ ActionType) then
    validate_resize_requires_flavor (mk action flavor_id)
  else Raise (RequestValidationError "Input should be 'start', 'stop', 'reboot' or 'resize'").

End ServerAction.

(** ** app/schemas/common.py *)

Module PaginatedResponse.

Record t (T : Type) : Type := mk {
  items : list T;
  total : Z;
  limit : Z;
  offset : Z;
  next_offset : option Z
}.
Arguments mk {T}.
Arguments items {T}.
Arguments total {T}.
Arguments limit {T}.
Arguments offset {T}.
Arguments next_offset {T}.

Definition build {T} (items : list T) (total limit offset : Z) : t T :=
  let next_offset := if offset + limit <? total then Some (offset + limit) else None in
  mk items total limit offset next_offset.

End PaginatedResponse.

(** ** app/infra/openstack/base.py: the capability interface *)

(** [class OpenStackClientBase(ABC)], the methods the engine calls. *)
Record OpenStackClientBase : Type := mkClient {
  create_server : Env -> string -> string -> string -> io ServerRecord.t;
  get_server : string -> io (option ServerRecord.t);
  list_servers : Z -> Z -> io (list ServerRecord.t * Z);
  update_server : Env -> string -> string -> io ServerRecord.t;
  delete_server : Env -> string -> io unit;
  perform_action : Env -> string -> string -> gmap string string -> io ServerRecord.t;
  get_flavor : string -> io (option FlavorRecord.t);
  get_image : string -> io (option ImageRecord.t)
}.

(** ** Library functions the backend calls *)

(** [random.randint(a, b)]: an integer N with a <= N <= b, here as a
    function of the generator's raw draw. *)
Definition randint (a b draw : Z) : Z := a + draw mod (b - a + 1).

(** [str(ipaddress.IPv4Address(n))] for 0 <= n < 2^32: the four octets,
    most significant first, in decimal. *)
Definition octet (n : Z) (k : Z) : Z := Z.land (Z.shiftr n (8 * k)) 255.
Definition IPv4Address_str (n : Z) : string :=
  pretty (octet n 3) +:+ "." +:+ pretty (octet n 2) +:+ "."
    +:+ pretty (octet n 1) +:+ "." +:+ pretty (octet n 0).

(** The result page of [SELECT ... LIMIT limit OFFSET offset] on SQLite,
    the configured database, for parameters the driver could bind: a
    negative OFFSET skips nothing and a negative LIMIT bounds nothing. *)
Definition sql_limit_offset {A} (limit offset : Z) (rows : list A) : list A :=
  let rest := drop (Z.to_nat offset) rows in
  if limit <? 0 then rest else take (Z.to_nat limit) rest.

(** The integers the SQLite driver binds as a query parameter: those of
    the signed 64-bit range. *)
Definition in_int64 (n : Z) : Prop := - 2 ^ 63 <= n < 2 ^ 63.

#[global] Instance in_int64_dec n : Decision (in_int64 n).
Proof. unfold in_int64. apply _. Defined.

(** Execution of a query that ends in [.limit(limit).offset(offset)]:
    both are bound as parameters, and the driver raises [OverflowError] on
    one it cannot bind, before any row is read. *)
Definition select_window {A} (limit offset : Z) (rows : Session -> list A)
  : io (list A) :=
  if bool_decide (in_int64 limit ∧ in_int64 offset)
  then query (fun db => sql_limit_offset limit offset (rows db))
  else raise OverflowError.

(** [ORDER BY created_at DESC]. *)
Definition newer_first (a b : Server.t) : Prop :=
  Server.created_at b <= Server.created_at a.

#[global] Instance newer_first_dec a b : Decision (newer_first a b).
Proof. unfold newer_first. apply _. Defined.

(** [WHERE status != 'DELETED'] *)
Definition not_deleted (s : Server.t) : Prop :=
  Server.status s <> ServerStatus.DELETED.

#[global] Instance not_deleted_dec s : Decision (not_deleted s).
Proof. unfold not_deleted. apply _. Defined.

(** ** app/infra/openstack/mock_client.py *)

Module MockOpenStackClient.

(** The timestamps of a row are never NULL, so the fallback to the
    current time of the source is never taken. *)
Definition _server_to_record (server : Server.t) : ServerRecord.t :=
  ServerRecord.mk
    (Server.id server) (Server.name server) (Server.status server)
    (Server.flavor_id server) (Server.image_id server)
    (Server.ip_address server)
    (Server.created_at server) (Server.updated_at server).

Definition _flavor_to_record (flavor : Flavor.t) : FlavorRecord.t :=
  FlavorRecord.mk
    (Flavor.id flavor) (Flavor.name flavor) (Flavor.vcpus flavor)
    (Flavor.ram_mb flavor) (Flavor.disk_gb flavor).

Definition _image_to_record (image : Image.t) : ImageRecord.t :=
  ImageRecord.mk
    (Image.id image) (Image.name image) (Image.os_distro image)
    (Image.min_disk_gb image) (Image.size_bytes image) (Image.status image).

Definition _random_ip (env : Env) : string :=
  IPv4Address_str (randint 0x0A000001 0x0AFFFFFF (draw env)).

(** "Valid transitions mirror the state machine definition" *)
Definition _ACTION_TRANSITIONS : gmap ServerStatus.t (gmap string ServerStatus.t) :=
  <[ServerStatus.ACTIVE :=
      <["stop" := ServerStatus.SHUTOFF]>
      (<["reboot" := ServerStatus.ACTIVE]>
      (<["resize" := ServerStatus.ACTIVE]> ∅))]>
  (<[ServerStatus.SHUTOFF :=
      <["start" := ServerStatus.ACTIVE]> ∅]> ∅).

(** The format of a [ServerStatus] member in an f-string. *)
Definition format_status (s : ServerStatus.t) : string :=
  "ServerStatus." +:+ ServerStatus.value s.

Definition not_found_msg (server_id : string) : string :=
  "Server " +:+ server_id +:+ " not found".

(** The INSERT of the flush fails on a primary key already in the table;
    the refresh reads back the timestamps the database defaulted. *)
Definition create_server (env : Env) (name flavor_id image_id : string)
  : io ServerRecord.t :=
  let server :=
    Server.mk (uuid4 env) name ServerStatus.ACTIVE flavor_id image_id
      (Some (_random_ip env)) (db_now env) (db_now env) in
  clash ← query (fun db => servers db !! Server.id server);
  match clash with
  | Some _ => raise IntegrityError
  | None =>
      set_servers (insert (Server.id server) server);;
      mret (_server_to_record server)
  end.

Definition get_server (server_id : string) : io (option ServerRecord.t) :=
  server ← query (fun db => servers db !! server_id);
  mret (_server_to_record <$> server).

Definition list_servers (limit offset : Z) : io (list ServerRecord.t * Z) :=
  total ← query (fun db =>
    Z.of_nat (length (filter not_deleted (snd <$> map_to_list (servers db)))));
  rows ← select_window limit offset (fun db =>
    merge_sort newer_first
      (filter not_deleted (snd <$> map_to_list (servers db))));
  mret (_server_to_record <$> rows, total).

Definition update_server (env : Env) (server_id name : string) : io ServerRecord.t :=
  found ← query (fun db => servers db !! server_id);
  match found with
  | None => raise (ValueError (not_found_msg server_id))
  | Some server =>
      let server :=
        Server.mk (Server.id server) name (Server.status server)
          (Server.flavor_id server) (Server.image_id server)
          (Server.ip_address server) (Server.created_at server) (utc_now env) in
      set_servers (insert server_id server);;
      mret (_server_to_record server)
  end.

Definition delete_server (env : Env) (server_id : string) : io unit :=
  found ← query (fun db => servers db !! server_id);
  match found with
  | None => raise (ValueError (not_found_msg server_id))
  | Some server =>
      let server :=
        Server.mk (Server.id server) (Server.name server) ServerStatus.DELETED
          (Server.flavor_id server) (Server.image_id server)
          (Server.ip_address server) (Server.created_at server) (utc_now env) in
      set_servers (insert server_id server)
  end.

Definition perform_action (env : Env) (server_id action : string)
    (kwargs : gmap string string) : io ServerRecord.t :=
  found ← query (fun db => servers db !! server_id);
  match found with
  | None => raise (ValueError (not_found_msg server_id))
  | Some server =>
      let transitions := default ∅ (_ACTION_TRANSITIONS !! Server.status server) in
      match transitions !! action with
      | None =>
          raise (ValueError ("Cannot perform action '" +:+ action
                   +:+ "' on server in status '"
                   +:+ format_status (Server.status server) +:+ "'"))
      | Some new_status =>
          let flavor_id :=
            if String.eqb action "resize"
            then default (Server.flavor_id server) (kwargs !! "flavor_id")
            else Server.flavor_id server in
          let server :=
            Server.mk (Server.id server) (Server.name server) new_status
              flavor_id (Server.image_id server)
              (Server.ip_address server) (Server.created_at server) (utc_now env) in
          set_servers (insert server_id server);;
          mret (_server_to_record server)
      end
  end.

Definition get_flavor (flavor_id : string) : io (option FlavorRecord.t) :=
  flavor ← query (fun db => flavors db !! flavor_id);
  mret (_flavor_to_record <$> flavor).

Definition get_image (image_id : string) : io (option ImageRecord.t) :=
  image ← query (fun db => images db !! image_id);
  mret (_image_to_record <$> image).

(** [MockOpenStackClient(session)] as an [OpenStackClientBase]. *)
Definition client : OpenStackClientBase :=
  mkClient create_server get_server list_servers update_server delete_server
    perform_action get_flavor get_image.

End MockOpenStackClient.

(** ** app/services/server_service.py *)

(** "State machine: maps current status → allowed actions → next status" *)
Definition VALID_TRANSITIONS : gmap ServerStatus.t (gmap string ServerStatus.t) :=
  <[ServerStatus.ACTIVE :=
      <["stop" := ServerStatus.SHUTOFF]>
      (<["reboot" := ServerStatus.ACTIVE]>
      (<["resize" := ServerStatus.ACTIVE]> ∅))]>
  (<[ServerStatus.SHUTOFF :=
      <["start" := ServerStatus.ACTIVE]> ∅]>
  (<[ServerStatus.BUILD := ∅]>
  (<[ServerStatus.REBOOT := ∅]>
  (<[ServerStatus.RESIZE := ∅]>
  (<[ServerStatus.VERIFY_RESIZE :=
      <["confirm_resize" := ServerStatus.ACTIVE]> ∅]> ∅))))).

Module ServerService.
Section WithClient.

(** [self._client] *)
Variable client : OpenStackClientBase.

Definition create (env : Env) (payload : ServerCreate.t) : io ServerRecord.t :=
  flavor ← get_flavor client (ServerCreate.flavor_id payload);
  match flavor with
  | None => raise (FlavorNotFoundError (ServerCreate.flavor_id payload))
  | Some _ =>
      image ← get_image client (ServerCreate.image_id payload);
      match image with
      | None => raise (ImageNotFoundError (ServerCreate.image_id payload))
      | Some _ =>
          create_server client env (ServerCreate.name payload)
            (ServerCreate.flavor_id payload) (ServerCreate.image_id payload)
      end
  end.

Definition get (server_id : string) : io ServerRecord.t :=
  server ← get_server client server_id;
  match server with
  | None => raise (ServerNotFoundError server_id)
  | Some server =>
      if decide (ServerRecord.status server = ServerStatus.DELETED)
      then raise (ServerNotFoundError server_id)
      else mret server
  end.

Definition list (limit offset : Z) : io (list ServerRecord.t * Z) :=
  list_servers client limit offset.

Definition update (env : Env) (server_id : string) (payload : ServerUpdate.t)
  : io ServerRecord.t :=
  server ← get_server client server_id;
  match server with
  | None => raise (ServerNotFoundError server_id)
  | Some server =>
      if decide (ServerRecord.status server = ServerStatus.DELETED)
      then raise (ServerDeletedError server_id)
      else
        let name := default (ServerRecord.name server) (ServerUpdate.name payload) in
        update_server client env server_id name
  end.

Definition delete (env : Env) (server_id : string) : io unit :=
  server ← get_server client server_id;
  match server with
  | None => raise (ServerNotFoundError server_id)
  | Some server =>
      if decide (ServerRecord.status server = ServerStatus.DELETED)
      then raise (ServerNotFoundError server_id)
      else delete_server client env server_id
  end.

Definition perform_action (env : Env) (server_id : string) (payload : ServerAction.t)
  : io ServerRecord.t :=
  server ← get_server client server_id;
  match server with
  | None => raise (ServerNotFoundError server_id)
  | Some server =>
      if decide (ServerRecord.status server = ServerStatus.DELETED)
      then raise (ServerNotFoundError server_id)
      else
        let allowed := default ∅ (VALID_TRANSITIONS !! ServerRecord.status server) in
        match allowed !! ServerAction.action payload with
        | None =>
            raise (InvalidStateTransitionError
                     (ServerStatus.value (ServerRecord.status server))
                     (ServerAction.action payload))
        | Some _ =>
            kwargs ←
              (if String.eqb (ServerAction.action payload) "resize"
                  && truthy (ServerAction.flavor_id payload)
               then
                 let flavor_id := default "" (ServerAction.flavor_id payload) in
                 flavor ← get_flavor client flavor_id;
                 match flavor with
                 | None => raise (FlavorNotFoundError flavor_id)
                 | Some _ => mret (<["flavor_id" := flavor_id]> (∅ : gmap string string))
                 end
               else mret (∅ : gmap string string));
            perform_action client env server_id (ServerAction.action payload) kwargs
        end
  end.

End WithClient.
End ServerService.

(** ** app/core/pagination.py *)

Module PaginationParams.

Record t : Type := mk { limit : Z; offset : Z }.

(** The query parameters with their defaults and bounds
    ([limit]: default 20, 1 to 100; [offset]: default 0, at least 0). *)
Definition parse (limit offset : option Z) : outcome t :=
  let limit := default 20 limit in
  let offset := default 0 offset in
  if (1 <=? limit) && (limit <=? 100) && (0 <=? offset)
  then Return (mk limit offset)
  else Raise (RequestValidationError "pagination out of range").

End PaginationParams.

(** ** app/api/v1/endpoints/servers.py *)

Module ServerResponse.

Record t : Type := mk {
  id : string;
  name : string;
  status : ServerStatus.t;
  flavor_id : string;
  image_id : string;
  ip_address : option string;
  created_at : Z;
  updated_at : Z;
  flavor : option FlavorRecord.t;
  image : option ImageRecord.t
}.

End ServerResponse.

Module Endpoints.
Section WithClient.

Variable client : OpenStackClientBase.

Definition _to_response (record : ServerRecord.t) : ServerResponse.t :=
  ServerResponse.mk
    (ServerRecord.id record) (ServerRecord.name record) (ServerRecord.status record)
    (ServerRecord.flavor_id record) (ServerRecord.image_id record)
    (ServerRecord.ip_address record)
    (ServerRecord.created_at record) (ServerRecord.updated_at record)
    None None.

(** [GET /servers] *)
Definition list_servers (pagination : PaginationParams.t)
  : io (PaginatedResponse.t ServerResponse.t) :=
  '(records, total) ← ServerService.list client
      (PaginationParams.limit pagination) (PaginationParams.offset pagination);
  let items := _to_response <$> records in
  mret (PaginatedResponse.build items total
          (PaginationParams.limit pagination) (PaginationParams.offset pagination)).

(** [POST /servers/{server_id}/action]: the body is turned into a
    [ServerAction] before the handler runs. *)
Definition server_action (env : Env) (server_id : string)
    (action : string) (flavor_id : option string) : io ServerResponse.t :=
  match ServerAction.model_validate action flavor_id with
  | Raise e => raise e
  | Return payload =>
      record ← ServerService.perform_action client env server_id payload;
      mret (_to_response record)
  end.

End WithClient.
End Endpoints.

(** ** A running example: the seeded catalog and the scenario of the spec *)

Module Scenario.

Definition F1 : string := "11111111-0000-0000-0000-000000000001".
Definition F2 : string := "11111111-0000-0000-0000-000000000002".
Definition I1 : string := "22222222-0000-0000-0000-000000000001".
Definition S1 : string := "33333333-0000-0000-0000-000000000001".

Definition seeded : Session :=
  mkSession ∅
    (<[F1 := Flavor.mk F1 "m1.tiny" 1 512 1]>
     (<[F2 := Flavor.mk F2 "m1.small" 1 2048 20]> ∅))
    (<[I1 := Image.mk I1 "Ubuntu 22.04 LTS" "ubuntu" 8 2361393152 "active"]> ∅).

Definition env (t : Z) : Env := mkEnv t t S1 12345.

Definition svc := MockOpenStackClient.client.

Definition after {A} (r : outcome A * Session) : Session := snd r.

Definition db1 : Session :=
  after (ServerService.create svc (env 100) (ServerCreate.mk "web-01" F1 I1) seeded).

(** A server a backend with asynchronous resize would leave in
    VERIFY_RESIZE. *)
Definition verify_resize_row : Server.t :=
  Server.mk S1 "web-01" ServerStatus.VERIFY_RESIZE F1 I1 (Some "10.0.0.7") 100 100.

Definition db_verify : Session :=
  mkSession (<[S1 := verify_resize_row]> ∅) (flavors seeded) (images seeded).

(** The row of web-01 after its creation at time 100, and after its
    deletion at time 102. *)
Definition web01 : Server.t :=
  Server.mk S1 "web-01" ServerStatus.ACTIVE F1 I1 (Some "10.0.48.58") 100 100.

Definition web01_deleted : Server.t :=
  Server.mk S1 "web-01" ServerStatus.DELETED F1 I1 (Some "10.0.48.58") 100 102.

Definition db_deleted : Session :=
  after (ServerService.delete svc (env 102) S1 db1).

End Scenario.

(** ** The transition table of the specification *)

(** The rows of the table as the specification prints them
    (current status, action, next status). *)
Definition transition_table : list (ServerStatus.t * string * ServerStatus.t) :=
  [ (ServerStatus.ACTIVE, "stop", ServerStatus.SHUTOFF);
    (ServerStatus.ACTIVE, "reboot", ServerStatus.ACTIVE);
    (ServerStatus.ACTIVE, "resize", ServerStatus.ACTIVE);
    (ServerStatus.SHUTOFF, "start", ServerStatus.ACTIVE);
    (ServerStatus.VERIFY_RESIZE, "confirm_resize", ServerStatus.ACTIVE) ].

(** The rows the reference backend carries out. *)
Definition backend_table : list (ServerStatus.t * string * ServerStatus.t) :=
  [ (ServerStatus.ACTIVE, "stop", ServerStatus.SHUTOFF);
    (ServerStatus.ACTIVE, "reboot", ServerStatus.ACTIVE);
    (ServerStatus.ACTIVE, "resize", ServerStatus.ACTIVE);
    (ServerStatus.SHUTOFF, "start", ServerStatus.ACTIVE) ].

(** [VALID_TRANSITIONS.get(status, {})] *)
Definition allowed (status : ServerStatus.t) : gmap string ServerStatus.t :=
  default ∅ (VALID_TRANSITIONS !! status).

(** [_ACTION_TRANSITIONS.get(status, {})] *)
Definition transitions (status : ServerStatus.t) : gmap string ServerStatus.t :=
  default ∅ (MockOpenStackClient._ACTION_TRANSITIONS !! status).

(** The rows a listing can show, as the WHERE clause selects them. *)
Definition visible (db : Session) : list Server.t :=
  filter not_deleted (snd <$> map_to_list (servers db)).

(** The session without the row of [server_id]. *)
Definition forget (server_id : string) (db : Session) : Session :=
  mkSession (delete server_id (servers db)) (flavors db) (images db).

(** The row a transition of the backend writes back. *)
Definition transitioned (env : Env) (row : Server.t) (new_status : ServerStatus.t) (flavor_id : string)
  : Server.t :=
  Server.mk (Server.id row) (Server.name row) new_status flavor_id
    (Server.image_id row) (Server.ip_address row) (Server.created_at row)
    (utc_now env).

Definition with_servers (db : Session) (m : gmap string Server.t) : Session :=
  mkSession m (flavors db) (images db).

(** The tombstone [delete_server] writes over a row. *)
Definition tombstone (env : Env) (row : Server.t) : Server.t :=
  Server.mk (Server.id row) (Server.name row) ServerStatus.DELETED
    (Server.flavor_id row) (Server.image_id row) (Server.ip_address row)
    (Server.created_at row) (utc_now env).

(** The addresses of network 10.0.0.0/8 in dotted-quad text: the 32-bit
    addresses from 10.0.0.0 to 10.255.255.255. *)
Definition in_10_slash_8 (ip : string) : Prop :=
  ∃ n, 0x0A000000 <= n <= 0x0AFFFFFF ∧ ip = IPv4Address_str n.

(** The servers of the store that are not DELETED. *)
Definition live_servers (db : Session) : gmap string Server.t :=
  filter (λ kv, not_deleted kv.2) (servers db).

(** Most recently created first, on records. *)
Definition created_desc (a b : ServerRecord.t) : Prop :=
  ServerRecord.created_at b <= ServerRecord.created_at a.

(** ** The catalog: listings, services and seed data *)

(** [ORDER BY name] on the two catalog tables (SQLite compares text byte
    by byte). *)
Definition flavor_name_asc (a b : Flavor.t) : Prop :=
  String.le (Flavor.name a) (Flavor.name b).

Definition image_name_asc (a b : Image.t) : Prop :=
  String.le (Image.name a) (Image.name b).

#[global] Instance flavor_name_asc_dec a b : Decision (flavor_name_asc a b).
Proof. unfold flavor_name_asc. apply _. Defined.

#[global] Instance image_name_asc_dec a b : Decision (image_name_asc a b).
Proof. unfold image_name_asc. apply _. Defined.

(** The two listing methods of [MockOpenStackClient] that
    [OpenStackClientBase] above leaves out. *)
Module MockCatalog.

Definition list_flavors (limit offset : Z) : io (list FlavorRecord.t * Z) :=
  total ← query (fun db => Z.of_nat (length (map_to_list (flavors db))));
  rows ← select_window limit offset (fun db =>
    merge_sort flavor_name_asc (snd <$> map_to_list (flavors db)));
  mret (MockOpenStackClient._flavor_to_record <$> rows, total).

Definition list_images (limit offset : Z) : io (list ImageRecord.t * Z) :=
  total ← query (fun db => Z.of_nat (length (map_to_list (images db))));
  rows ← select_window limit offset (fun db =>
    merge_sort image_name_asc (snd <$> map_to_list (images db)));
  mret (MockOpenStackClient._image_to_record <$> rows, total).

End MockCatalog.

(** app/services/flavor_service.py *)
Module FlavorService.
Section WithClient.

Variable client : OpenStackClientBase.
Variable list_flavors : Z -> Z -> io (list FlavorRecord.t * Z).

Definition get (flavor_id : string) : io FlavorRecord.t :=
  flavor ← get_flavor client flavor_id;
  match flavor with
  | None => raise (FlavorNotFoundError flavor_id)
  | Some flavor => mret flavor
  end.

Definition list (limit offset : Z) : io (list FlavorRecord.t * Z) :=
  '(records, total) ← list_flavors limit offset;
  mret (records, total).

End WithClient.
End FlavorService.

(** app/services/image_service.py *)
Module ImageService.
Section WithClient.

Variable client : OpenStackClientBase.
Variable list_images : Z -> Z -> io (list ImageRecord.t * Z).

Definition get (image_id : string) : io ImageRecord.t :=
  image ← get_image client image_id;
  match image with
  | None => raise (ImageNotFoundError image_id)
  | Some image => mret image
  end.

Definition list (limit offset : Z) : io (list ImageRecord.t * Z) :=
  '(records, total) ← list_images limit offset;
  mret (records, total).

End WithClient.
End ImageService.

(** app/main.py: the seed data and [seed_data] *)
Module Main.

Definition SEED_FLAVORS : list Flavor.t :=
  [ Flavor.mk "11111111-0000-0000-0000-000000000001" "m1.tiny" 1 512 1;
    Flavor.mk "11111111-0000-0000-0000-000000000002" "m1.small" 1 2048 20;
    Flavor.mk "11111111-0000-0000-0000-000000000003" "m1.medium" 2 4096 40;
    Flavor.mk "11111111-0000-0000-0000-000000000004" "m1.large" 4 8192 80;
    Flavor.mk "11111111-0000-0000-0000-000000000005" "m1.xlarge" 8 16384 160 ].

Definition SEED_IMAGES : list Image.t :=
  [ Image.mk "22222222-0000-0000-0000-000000000001" "Ubuntu 22.04 LTS" "ubuntu"
      8 2361393152 "active";
    Image.mk "22222222-0000-0000-0000-000000000002" "Debian 12" "debian"
      8 1073741824 "active";
    Image.mk "22222222-0000-0000-0000-000000000003" "CentOS Stream 9" "centos"
      10 1610612736 "active";
    Image.mk "22222222-0000-0000-0000-000000000004" "Fedora 39" "fedora"
      8 1879048192 "active" ].

(** [session.add] of each seed row in turn, on a table that holds none of
    their keys. *)
Definition add_flavors (rows : list Flavor.t) (table : gmap string Flavor.t)
  : gmap string Flavor.t :=
  foldl (fun m f => <[Flavor.id f := f]> m) table rows.

Definition add_images (rows : list Image.t) (table : gmap string Image.t)
  : gmap string Image.t :=
  foldl (fun m i => <[Image.id i := i]> m) table rows.

(** Each table is seeded only when [SELECT ... LIMIT 1] finds no row. *)
Definition seed_data : io unit :=
  fun db =>
    let flavors' :=
      match head (map_to_list (flavors db)) with
      | None => add_flavors SEED_FLAVORS (flavors db)
      | Some _ => flavors db
      end in
    let images' :=
      match head (map_to_list (images db)) with
      | None => add_images SEED_IMAGES (images db)
      | Some _ => images db
      end in
    (Return tt, mkSession (servers db) flavors' images').

End Main.

(** ** The remaining handlers of app/api/v1/endpoints/servers.py *)

Module Routes.
Section WithClient.

Variable client : OpenStackClientBase.

(** [POST /servers], for a body the schema accepted. *)
Definition create_server (env : Env) (payload : ServerCreate.t) : io ServerResponse.t :=
  record ← ServerService.create client env payload;
  mret (Endpoints._to_response record).

(** [GET /servers/{server_id}] *)
Definition get_server (server_id : string) : io ServerResponse.t :=
  record ← ServerService.get client server_id;
  mret (Endpoints._to_response record).

(** [PATCH /servers/{server_id}], for a body the schema accepted. *)
Definition update_server (env : Env) (server_id : string) (payload : ServerUpdate.t)
  : io ServerResponse.t :=
  record ← ServerService.update client env server_id payload;
  mret (Endpoints._to_response record).

(** [DELETE /servers/{server_id}] *)
Definition delete_server (env : Env) (server_id : string) : io unit :=
  ServerService.delete client env server_id.

End WithClient.

(** The status line of the answer: the [status_code] of the route on
    success (200 when the decorator names none), and what the exception
    handlers answer otherwise. *)
Definition http_status {A} (success : Z) (answer : outcome A) : Z :=
  match answer with
  | Return _ => success
  | Raise e => status_code e
  end.

Definition HTTP_200_OK : Z := 200.
Definition HTTP_202_ACCEPTED : Z := 202.

End Routes.

(** ** Requests served one after another *)

(** A call of one of the six operations of [ServerService]. *)
Inductive request : Type :=
| Create (payload : ServerCreate.t)
| Get (server_id : string)
| List (limit offset : Z)
| Update (server_id : string) (payload : ServerUpdate.t)
| Delete (server_id : string)
| Action (server_id : string) (payload : ServerAction.t).

(** The session one call leaves behind. *)
Definition serve (env : Env) (req : request) (db : Session) : Session :=
  let svc := MockOpenStackClient.client in
  match req with
  | Create payload => snd (ServerService.create svc env payload db)
  | Get server_id => snd (ServerService.get svc server_id db)
  | List limit offset => snd (ServerService.list svc limit offset db)
  | Update server_id payload => snd (ServerService.update svc env server_id payload db)
  | Delete server_id => snd (ServerService.delete svc env server_id db)
  | Action server_id payload =>
      snd (ServerService.perform_action svc env server_id payload db)
  end.

(** Whether the call ended in an exception. *)
Definition raised (env : Env) (req : request) (db : Session) : option exn :=
  let svc := MockOpenStackClient.client in
  let failure {A} (r : outcome A * Session) : option exn :=
    match fst r with Return _ => None | Raise e => Some e end in
  match req with
  | Create payload => failure (ServerService.create svc env payload db)
  | Get server_id => failure (ServerService.get svc server_id db)
  | List limit offset => failure (ServerService.list svc limit offset db)
  | Update server_id payload => failure (ServerService.update svc env server_id payload db)
  | Delete server_id => failure (ServerService.delete svc env server_id db)
  | Action server_id payload =>
      failure (ServerService.perform_action svc env server_id payload db)
  end.

(** A history of calls, each with what the outside world answered during
    it, served in order on the store the previous call left. *)
Fixpoint run (history : list (Env * request)) (db : Session) : Session :=
  match history with
  | [] => db
  | (env, req) :: rest => run rest (serve env req db)
  end.

(** What one call can do to the store: nothing, add one ACTIVE server
    under a new key, or rewrite one server that is not DELETED, keeping
    its status or moving it to ACTIVE, SHUTOFF or DELETED. *)
Inductive effect (db db' : Session) : Prop :=
| effect_none :
    db' = db → effect db db'
| effect_insert (row : Server.t) :
    servers db !! Server.id row = None →
    Server.status row = ServerStatus.ACTIVE →
    is_Some (flavors db !! Server.flavor_id row) →
    is_Some (images db !! Server.image_id row) →
    db' = with_servers db (<[Server.id row := row]> (servers db)) →
    effect db db'
| effect_rewrite (key : string) (row row' : Server.t) :
    servers db !! key = Some row →
    Server.status row ≠ ServerStatus.DELETED →
    Server.id row' = Server.id row →
    Server.image_id row' = Server.image_id row →
    Server.ip_address row' = Server.ip_address row →
    Server.created_at row' = Server.created_at row →
    (Server.status row' = Server.status row
     ∨ Server.status row'
         ∈ [ServerStatus.ACTIVE; ServerStatus.SHUTOFF; ServerStatus.DELETED]) →
    (Server.flavor_id row' = Server.flavor_id row
     ∨ is_Some (flavors db !! Server.flavor_id row')) →
    db' = with_servers db (<[key := row']> (servers db)) →
    effect db db'.

(** Invariants of the table of servers. *)
Definition settled (db : Session) : Prop :=
  ∀ key row, servers db !! key = Some row →
    Server.status row
      ∈ [ServerStatus.ACTIVE; ServerStatus.SHUTOFF; ServerStatus.DELETED].

Definition keyed_by_id (db : Session) : Prop :=
  ∀ key row, servers db !! key = Some row → Server.id row = key.

Definition references_resolve (db : Session) : Prop :=
  ∀ key row, servers db !! key = Some row →
    is_Some (flavors db !! Server.flavor_id row)
    ∧ is_Some (images db !! Server.image_id row).

(** ** The running example, continued *)

Module Story.

Import Scenario.

(** web-01 is created, stopped and deleted. *)
Definition history : list (Env * request) :=
  [ (env 100, Create (ServerCreate.mk "web-01" F1 I1));
    (env 101, Action S1 (ServerAction.mk "stop" None));
    (env 102, Delete S1) ].

Definition web01_stopped : Server.t :=
  Server.mk S1 "web-01" ServerStatus.SHUTOFF F1 I1 (Some "10.0.48.58") 100 101.

Definition db_stopped : Session :=
  after (ServerService.perform_action svc (env 101) S1
           (ServerAction.mk "stop" None) db1).

End Story.

(** ** Basic facts *)

Section Tables.

Import ServerStatus.

Lemma allowed_ACTIVE :
  allowed ACTIVE
  = <["stop" := SHUTOFF]> (<["reboot" := ACTIVE]> (<["resize" := ACTIVE]> ∅)).
Proof. reflexivity. Qed.

Lemma allowed_SHUTOFF : allowed SHUTOFF = <["start" := ACTIVE]> ∅.
Proof. reflexivity. Qed.

Lemma allowed_VERIFY_RESIZE : allowed VERIFY_RESIZE = <["confirm_resize" := ACTIVE]> ∅.
Proof. reflexivity. Qed.

Lemma allowed_other s :
  s ≠ ACTIVE → s ≠ SHUTOFF → s ≠ VERIFY_RESIZE → allowed s = ∅.
Proof. destruct s; intros; try congruence; reflexivity. Qed.

Lemma transitions_ACTIVE :
  transitions ACTIVE
  = <["stop" := SHUTOFF]> (<["reboot" := ACTIVE]> (<["resize" := ACTIVE]> ∅)).
Proof. reflexivity. Qed.

Lemma transitions_SHUTOFF : transitions SHUTOFF = <["start" := ACTIVE]> ∅.
Proof. reflexivity. Qed.

Lemma transitions_other s : s ≠ ACTIVE → s ≠ SHUTOFF → transitions s = ∅.
Proof. destruct s; intros; try congruence; reflexivity. Qed.

(** The engine's nested mapping holds exactly the rows of the table. *)
Lemma allowed_table s a ns :
  allowed s !! a = Some ns ↔ (s, a, ns) ∈ transition_table.
Proof.
  unfold transition_table. rewrite !elem_of_cons, elem_of_nil.
  destruct s;
    first [ rewrite allowed_ACTIVE | rewrite allowed_SHUTOFF
          | rewrite allowed_VERIFY_RESIZE | rewrite allowed_other by done ];
    rewrite ?lookup_insert_Some, ?lookup_empty; intuition congruence.
Qed.

(** The backend's nested mapping holds exactly the first four rows. *)
Lemma transitions_table s a ns :
  transitions s !! a = Some ns ↔ (s, a, ns) ∈ backend_table.
Proof.
  unfold backend_table. rewrite !elem_of_cons, elem_of_nil.
  destruct s;
    first [ rewrite transitions_ACTIVE | rewrite transitions_SHUTOFF
          | rewrite transitions_other by done ];
    rewrite ?lookup_insert_Some, ?lookup_empty; intuition congruence.
Qed.

Lemma backend_table_sub s a ns :
  (s, a, ns) ∈ backend_table → (s, a, ns) ∈ transition_table.
Proof. unfold backend_table, transition_table. rewrite !elem_of_cons. intuition. Qed.

Lemma allowed_None s a :
  allowed s !! a = None ↔ ∀ ns, (s, a, ns) ∉ transition_table.
Proof.
  split.
  - intros H ns Hin. apply allowed_table in Hin. congruence.
  - intros H. destruct (allowed s !! a) as [ns|] eqn:E; [|done].
    apply allowed_table in E. by destruct (H ns).
Qed.

End Tables.

(** Unfolds one coroutine into the function on sessions it denotes. *)
Ltac run :=
  unfold mbind, mret, io_bind, io_ret, bind, ret, raise, query, set_servers;
  simpl.

Section Engine.

Local Abbreviation svc := MockOpenStackClient.client.
Local Abbreviation record := MockOpenStackClient._server_to_record.

Implicit Types (db : Session) (env : Env) (row : Server.t).

Lemma get_server_eq db server_id :
  get_server svc server_id db = (Return (record <$> servers db !! server_id), db).
Proof. reflexivity. Qed.

Lemma status_record row : ServerRecord.status (record row) = Server.status row.
Proof. reflexivity. Qed.

(** What the existence and tombstone checks of the engine leave to do. *)
Lemma perform_action_live env db server_id payload row :
  servers db !! server_id = Some row →
  Server.status row ≠ ServerStatus.DELETED →
  ServerService.perform_action svc env server_id payload db
  = match allowed (Server.status row) !! ServerAction.action payload with
    | None =>
        (Raise (InvalidStateTransitionError
                  (ServerStatus.value (Server.status row))
                  (ServerAction.action payload)), db)
    | Some _ =>
        if String.eqb (ServerAction.action payload) "resize"
           && truthy (ServerAction.flavor_id payload)
        then
          let flavor_id := default "" (ServerAction.flavor_id payload) in
          match flavors db !! flavor_id with
          | None => (Raise (FlavorNotFoundError flavor_id), db)
          | Some _ =>
              MockOpenStackClient.perform_action env server_id
                (ServerAction.action payload) (<["flavor_id" := flavor_id]> ∅) db
          end
        else
          MockOpenStackClient.perform_action env server_id
            (ServerAction.action payload) ∅ db
    end.
Proof.
  intros Hrow Hlive. unfold ServerService.perform_action. run.
  rewrite Hrow. simpl. destruct (decide _) as [E|_]; [done|].
  fold (allowed (Server.status row)).
  destruct (allowed (Server.status row) !! _); [|done].
  destruct (_ && _); simpl; [|done].
  destruct (flavors db !! _); done.
Qed.

Lemma list_servers_eq db limit offset :
  in_int64 limit → in_int64 offset →
  ServerService.list svc limit offset db
  = (Return (record <$> sql_limit_offset limit offset (merge_sort newer_first (visible db)),
             Z.of_nat (length (visible db))), db).
Proof.
  intros Hlimit Hoffset.
  unfold ServerService.list. simpl.
  unfold MockOpenStackClient.list_servers, select_window. run.
  rewrite bool_decide_true by done. reflexivity.
Qed.

Lemma list_servers_overflow db limit offset :
  ¬ (in_int64 limit ∧ in_int64 offset) →
  ServerService.list svc limit offset db = (Raise OverflowError, db).
Proof.
  intros Hout.
  unfold ServerService.list. simpl.
  unfold MockOpenStackClient.list_servers, select_window. run.
  rewrite bool_decide_false by done. reflexivity.
Qed.

Lemma sql_limit_offset_subseteq {A} limit offset (rows : list A) :
  sql_limit_offset limit offset rows ⊆ rows.
Proof.
  unfold sql_limit_offset. destruct (limit <? 0).
  - apply subseteq_drop.
  - etrans; [apply subseteq_take | apply subseteq_drop].
Qed.

Lemma page_visible db limit offset row :
  row ∈ sql_limit_offset limit offset (merge_sort newer_first (visible db)) →
  row ∈ visible db.
Proof.
  intros H. apply sql_limit_offset_subseteq in H.
  by rewrite merge_sort_Permutation in H.
Qed.

Lemma visible_spec db row :
  row ∈ visible db ↔
  not_deleted row ∧ ∃ server_id, servers db !! server_id = Some row.
Proof.
  unfold visible. rewrite list_elem_of_filter, list_elem_of_fmap.
  split.
  - intros [Hlive ([k r] & -> & Hin)]. split; [done|].
    exists k. by apply elem_of_map_to_list in Hin.
  - intros [Hlive [k Hk]]. split; [done|].
    exists (k, row). split; [done|]. by apply elem_of_map_to_list.
Qed.

Lemma visible_forget_deleted db server_id row :
  servers db !! server_id = Some row →
  ¬ not_deleted row →
  visible (forget server_id db) ≡ₚ visible db.
Proof.
  intros Hrow Hdead. unfold visible, forget. simpl.
  rewrite <- (map_to_list_delete (servers db) server_id row Hrow).
  rewrite fmap_cons. simpl. by rewrite filter_cons_False.
Qed.

(** *** Claim C4 *)

(** C4. The existence check comes before every state check: for an ID the
    store does not hold, get, update, delete and perform_action all fail
    with ServerNotFound (a 404), whatever the payload or action, and leave
    the store as it was. *)
Theorem missing_id_is_not_found env db server_id
    (upd : ServerUpdate.t) (act : ServerAction.t) :
  servers db !! server_id = None →
  ServerService.get svc server_id db = (Raise (ServerNotFoundError server_id), db)
  ∧ ServerService.update svc env server_id upd db
    = (Raise (ServerNotFoundError server_id), db)
  ∧ ServerService.delete svc env server_id db
    = (Raise (ServerNotFoundError server_id), db)
  ∧ ServerService.perform_action svc env server_id act db
    = (Raise (ServerNotFoundError server_id), db)
  ∧ status_code (ServerNotFoundError server_id) = 404.
Proof.
  intros Hnone.
  unfold ServerService.get, ServerService.update, ServerService.delete,
    ServerService.perform_action.
  run. rewrite Hnone. simpl. done.
Qed.

(** *** Claim C2 *)

(** C2. On an existing server that is not DELETED, an action the
    transition table does not list for the current status (so every action
    while the status is BUILD, REBOOT, RESIZE or ERROR) fails with
    InvalidStateTransition, whose details hold the current status and the
    requested action; the store is left as it was. *)
Theorem unlisted_action_is_rejected env db server_id payload row :
  servers db !! server_id = Some row →
  Server.status row ≠ ServerStatus.DELETED →
  ((∀ ns, (Server.status row, ServerAction.action payload, ns) ∉ transition_table)
   ∨ Server.status row ∈ [ServerStatus.BUILD; ServerStatus.REBOOT;
                           ServerStatus.RESIZE; ServerStatus.ERROR]) →
  let e := InvalidStateTransitionError
             (ServerStatus.value (Server.status row))
             (ServerAction.action payload) in
  ServerService.perform_action svc env server_id payload db = (Raise e, db)
  ∧ details e = Some [("current_status", ServerStatus.value (Server.status row));
                      ("action", ServerAction.action payload)]
  ∧ status_code e = 409.
Proof.
  intros Hrow Hlive Hout e. split; [|done].
  rewrite (perform_action_live _ _ _ _ _ Hrow Hlive).
  assert (allowed (Server.status row) !! ServerAction.action payload = None) as ->; [|done].
  destruct Hout as [Hout|Hsys].
  - by apply allowed_None.
  - rewrite allowed_other; [apply lookup_empty | | |];
      intros E; rewrite E in Hsys;
      rewrite !elem_of_cons, elem_of_nil in Hsys; intuition congruence.
Qed.

(** *** Claim C3 *)

(** C3. A server whose status is DELETED is invisible to get and
    perform_action (ServerNotFound, as for an ID that does not exist) and to
    list (for a limit and an offset the database can take, that is, of the
    signed 64-bit range: no returned record is the tombstone, none has
    status DELETED, and the total is the total of the store without the
    row), while update answers with the distinct ServerDeleted error (a
    409, not a 404). *)
Theorem deleted_server_visibility env db server_id row
    (upd : ServerUpdate.t) (act : ServerAction.t) (limit offset : Z) :
  servers db !! server_id = Some row →
  Server.status row = ServerStatus.DELETED →
  ServerService.get svc server_id db = (Raise (ServerNotFoundError server_id), db)
  ∧ ServerService.perform_action svc env server_id act db
    = (Raise (ServerNotFoundError server_id), db)
  ∧ ServerService.update svc env server_id upd db
    = (Raise (ServerDeletedError server_id), db)
  ∧ ServerDeletedError server_id ≠ ServerNotFoundError server_id
  ∧ status_code (ServerDeletedError server_id) = 409
  ∧ status_code (ServerNotFoundError server_id) = 404
  ∧ (in_int64 limit → in_int64 offset →
     ∃ records total,
       ServerService.list svc limit offset db = (Return (records, total), db)
       ∧ (record row ∉ records)
       ∧ Forall (λ r, ServerRecord.status r ≠ ServerStatus.DELETED) records
       ∧ ∃ records',
           ServerService.list svc limit offset (forget server_id db)
           = (Return (records', total), forget server_id db)).
Proof.
  intros Hrow Hdead.
  unfold ServerService.get, ServerService.update, ServerService.perform_action.
  run. rewrite Hrow. simpl.
  destruct (decide _) as [_|E]; [|done].
  do 6 (split; [done|]).
  intros Hlimit Hoffset.
  eexists _, _. split; [by apply list_servers_eq|].
  split; [|split].
  - intros Hin. apply list_elem_of_fmap in Hin as (row' & Heq & Hin).
    apply page_visible, visible_spec in Hin as [Hlive _].
    apply Hlive. rewrite <- (status_record row'), <- Heq. done.
  - apply Forall_forall. intros r Hin.
    apply list_elem_of_fmap in Hin as (row' & -> & Hin).
    by apply page_visible, visible_spec in Hin as [Hlive _].
  - assert (length (visible (forget server_id db)) = length (visible db)) as Hlen.
    { apply Permutation_length, (visible_forget_deleted _ _ row); [done|].
      unfold not_deleted. by intros H. }
    eexists. rewrite list_servers_eq, Hlen by done. reflexivity.
Qed.

Lemma backend_perform_action env db server_id action kwargs row ns :
  servers db !! server_id = Some row →
  transitions (Server.status row) !! action = Some ns →
  let row' :=
    transitioned env row ns
      (if String.eqb action "resize"
       then default (Server.flavor_id row) (kwargs !! "flavor_id")
       else Server.flavor_id row) in
  MockOpenStackClient.perform_action env server_id action kwargs db
  = (Return (record row'), with_servers db (<[server_id := row']> (servers db))).
Proof.
  intros Hrow Hns. unfold MockOpenStackClient.perform_action. run.
  rewrite Hrow. fold (transitions (Server.status row)). rewrite Hns. done.
Qed.

Lemma backend_perform_action_refused env db server_id action kwargs row :
  servers db !! server_id = Some row →
  transitions (Server.status row) !! action = None →
  ∃ msg,
    MockOpenStackClient.perform_action env server_id action kwargs db
    = (Raise (ValueError msg), db).
Proof.
  intros Hrow Hns. unfold MockOpenStackClient.perform_action. run.
  rewrite Hrow. fold (transitions (Server.status row)). rewrite Hns. eauto.
Qed.

Lemma truthy_Some f : truthy (Some f) = true ↔ f ≠ "".
Proof.
  simpl. rewrite negb_true_iff. split.
  - intros H ->. done.
  - intros H. by apply String.eqb_neq.
Qed.

(** *** Claim C1 *)

(** The actions the schema lets through. *)
Lemma model_validate_action action flavor_id payload :
  ServerAction.model_validate action flavor_id = Return payload →
  ServerAction.action payload ∈ ActionType.
Proof.
  unfold ServerAction.model_validate, ServerAction.validate_resize_requires_flavor.
  case_bool_decide; [|done]. simpl.
  destruct (_ && _); [done|]. destruct (_ && _); [done|]. by intros [= <-].
Qed.

(** The rows the backend carries out succeed, a resize when the flavor it
    is given resolves. *)
Lemma backend_table_action_succeeds env db server_id payload row ns :
  servers db !! server_id = Some row →
  Server.status row ≠ ServerStatus.DELETED →
  (Server.status row, ServerAction.action payload, ns) ∈ backend_table →
  (∀ f, ServerAction.flavor_id payload = Some f → is_Some (flavors db !! f)) →
  ∃ r db',
    ServerService.perform_action svc env server_id payload db = (Return r, db')
    ∧ ServerRecord.status r = ns
    ∧ record <$> servers db' !! server_id = Some r.
Proof.
  intros Hrow Hlive Hin Hflavor.
  rewrite (perform_action_live _ _ _ _ _ Hrow Hlive).
  pose proof (proj2 (transitions_table _ _ _) Hin) as Hback.
  apply backend_table_sub, allowed_table in Hin. rewrite Hin.
  destruct (String.eqb (ServerAction.action payload) "resize") eqn:Ea; simpl.
  - destruct (ServerAction.flavor_id payload) as [f|] eqn:Ef.
    + destruct (truthy (Some f)) eqn:Et; simpl.
      * destruct (Hflavor f eq_refl) as [fl ->].
        rewrite (backend_perform_action _ _ _ _ _ _ _ Hrow Hback).
        eexists _, _. split; [done|]. simpl. by rewrite lookup_insert_eq.
      * rewrite (backend_perform_action _ _ _ _ _ _ _ Hrow Hback).
        eexists _, _. split; [done|]. simpl. by rewrite lookup_insert_eq.
    + simpl. rewrite (backend_perform_action _ _ _ _ _ _ _ Hrow Hback).
      eexists _, _. split; [done|]. simpl. by rewrite lookup_insert_eq.
  - rewrite (backend_perform_action _ _ _ _ _ _ _ Hrow Hback).
    eexists _, _. split; [done|]. simpl. by rewrite lookup_insert_eq.
Qed.

(** C1, as the code has it. For an existing server that is not DELETED and
    a request the schema accepts, whose current status and action appear
    in the transition table, perform_action succeeds and returns (and
    stores) the server with the table's next status, provided the flavor
    the request names, if any, resolves via the catalog: ACTIVE+stop gives
    SHUTOFF, ACTIVE+reboot ACTIVE, ACTIVE+resize ACTIVE and SHUTOFF+start
    ACTIVE. No request the schema accepts names confirm_resize (such a
    body is answered 422), so the row VERIFY_RESIZE+confirm_resize is
    never asked for. *)
Theorem listed_action_succeeds env db server_id row action flavor_id payload ns :
  servers db !! server_id = Some row →
  Server.status row ≠ ServerStatus.DELETED →
  ServerAction.model_validate action flavor_id = Return payload →
  (Server.status row, ServerAction.action payload, ns) ∈ transition_table →
  (∀ target, ServerAction.flavor_id payload = Some target →
             is_Some (flavors db !! target)) →
  (∃ r db',
     ServerService.perform_action svc env server_id payload db = (Return r, db')
     ∧ ServerRecord.status r = ns
     ∧ record <$> servers db' !! server_id = Some r)
  ∧ (Server.status row, ServerAction.action payload, ns)
      ∈ [ (ServerStatus.ACTIVE, "stop", ServerStatus.SHUTOFF);
          (ServerStatus.ACTIVE, "reboot", ServerStatus.ACTIVE);
          (ServerStatus.ACTIVE, "resize", ServerStatus.ACTIVE);
          (ServerStatus.SHUTOFF, "start", ServerStatus.ACTIVE) ]
  ∧ ServerAction.action payload ≠ "confirm_resize"
  ∧ ∀ body_flavor, ∃ e,
      ServerAction.model_validate "confirm_resize" body_flavor = Raise e
      ∧ status_code e = 422.
Proof.
  intros Hrow Hlive Hvalid Hin Hflavor.
  pose proof (model_validate_action _ _ _ Hvalid) as Haction.
  assert (ServerAction.action payload ≠ "confirm_resize") as Hne.
  { intros E. rewrite E in Haction. unfold ActionType in Haction.
    rewrite !elem_of_cons, elem_of_nil in Haction. intuition congruence. }
  assert ((Server.status row, ServerAction.action payload, ns) ∈ backend_table)
    as Hback.
  { unfold transition_table in Hin. unfold backend_table.
    rewrite !elem_of_cons, elem_of_nil in Hin. rewrite !elem_of_cons.
    destruct Hin as [E|[E|[E|[E|[E|[]]]]]]; auto.
    exfalso. apply Hne. by injection E. }
  split; [by apply (backend_table_action_succeeds _ _ _ _ row)|].
  split; [exact Hback|]. split; [exact Hne|].
  intros body_flavor. eexists. split; reflexivity.
Qed.

(** *** Claim C5 *)

(** C5. delete on an existing server that is not DELETED succeeds: the row
    stays in the store with status DELETED and the current time as its
    update timestamp, and nothing else changes. Every later delete of the
    same ID fails with ServerNotFound and changes nothing. *)
Theorem delete_succeeds_once env db server_id row :
  servers db !! server_id = Some row →
  Server.status row ≠ ServerStatus.DELETED →
  ∃ db',
    ServerService.delete svc env server_id db = (Return tt, db')
    ∧ db' = with_servers db (<[server_id := tombstone env row]> (servers db))
    ∧ (Server.status <$> servers db' !! server_id) = Some ServerStatus.DELETED
    ∧ (Server.updated_at <$> servers db' !! server_id) = Some (utc_now env)
    ∧ (∀ other, other ≠ server_id → servers db' !! other = servers db !! other)
    ∧ ∀ env',
        ServerService.delete svc env' server_id db'
        = (Raise (ServerNotFoundError server_id), db').
Proof.
  intros Hrow Hlive. eexists. split; [|split; [reflexivity|]].
  - unfold ServerService.delete. run. rewrite Hrow. simpl.
    destruct (decide _) as [E|_]; [done|].
    unfold MockOpenStackClient.delete_server. run. rewrite Hrow. reflexivity.
  - simpl. rewrite lookup_insert_eq. do 2 (split; [done|]). split.
    + intros other Hne. by rewrite lookup_insert_ne.
    + intros env'. unfold ServerService.delete. run.
      rewrite lookup_insert_eq. simpl. reflexivity.
Qed.

(** A call that returns went through a transition of the backend. *)
Lemma perform_action_success_inv env db server_id payload row r db' :
  servers db !! server_id = Some row →
  ServerService.perform_action svc env server_id payload db = (Return r, db') →
  ∃ ns (kwargs : gmap string string),
    transitions (Server.status row) !! ServerAction.action payload = Some ns
    ∧ r = record (transitioned env row ns
                    (if String.eqb (ServerAction.action payload) "resize"
                     then default (Server.flavor_id row) (kwargs !! "flavor_id")
                     else Server.flavor_id row))
    ∧ db' = with_servers db
              (<[server_id := transitioned env row ns
                    (if String.eqb (ServerAction.action payload) "resize"
                     then default (Server.flavor_id row) (kwargs !! "flavor_id")
                     else Server.flavor_id row)]> (servers db)).
Proof.
  intros Hrow Hrun.
  destruct (decide (Server.status row = ServerStatus.DELETED)) as [Hdead|Hlive].
  { revert Hrun. unfold ServerService.perform_action. run. rewrite Hrow. simpl.
    destruct (decide _); [done|congruence]. }
  rewrite (perform_action_live _ _ _ _ _ Hrow Hlive) in Hrun.
  destruct (allowed _ !! _) as [ns|] eqn:Hallowed; [|done].
  destruct (transitions (Server.status row) !! ServerAction.action payload)
    as [ns'|] eqn:Hback.
  - assert (∃ kw,
      MockOpenStackClient.perform_action env server_id
        (ServerAction.action payload) kw db = (Return r, db')) as [kw Hkw].
    { destruct (_ && _); cbv zeta in Hrun;
        [destruct (flavors db !! _); [|done]|]; eauto. }
    exists ns', kw. split; [done|].
    rewrite (backend_perform_action _ _ _ _ _ _ _ Hrow Hback) in Hkw.
    injection Hkw as <- <-. split; reflexivity.
  - exfalso.
    assert (∀ kw, ∃ msg,
      MockOpenStackClient.perform_action env server_id
        (ServerAction.action payload) kw db = (Raise (ValueError msg), db)) as Hno.
    { intros kw. by apply (backend_perform_action_refused _ _ _ _ _ row). }
    destruct (_ && _); cbv zeta in Hrun;
      [destruct (flavors db !! _); [|done]|];
      edestruct Hno as [msg Hmsg]; rewrite Hmsg in Hrun; done.
Qed.

(** *** Claim C7 *)

(** What the schema lets through as a resize request. *)
Lemma model_validate_resize flavor_id payload :
  ServerAction.model_validate "resize" flavor_id = Return payload →
  ∃ target, flavor_id = Some target ∧ target ≠ ""
            ∧ payload = ServerAction.mk "resize" (Some target).
Proof.
  unfold ServerAction.model_validate. case_bool_decide; [|done].
  unfold ServerAction.validate_resize_requires_flavor. simpl.
  destruct flavor_id as [target|]; simpl; [|done].
  destruct (String.eqb_spec target ""); simpl; [done|].
  intros [= <-]. eauto.
Qed.

(** C7. A resize request has to name a target flavor to pass the schema.
    For such a request on an ACTIVE server: when the flavor does not
    resolve via the catalog the call fails with FlavorNotFound and the
    store is left as it was; when it resolves the call succeeds, and the
    returned and the stored server carry the target as flavor_id and the
    current time as update timestamp. Every successful perform_action
    returns the current time as update timestamp and, unless the action is
    resize, the flavor_id the server had. *)
Theorem resize_and_timestamp env db server_id row :
  servers db !! server_id = Some row →
  (∀ flavor_id payload,
     Server.status row = ServerStatus.ACTIVE →
     ServerAction.model_validate "resize" flavor_id = Return payload →
     ∃ target,
       flavor_id = Some target
       ∧ match flavors db !! target with
         | None =>
             ServerService.perform_action svc env server_id payload db
             = (Raise (FlavorNotFoundError target), db)
         | Some _ =>
             ∃ r db',
               ServerService.perform_action svc env server_id payload db
               = (Return r, db')
               ∧ ServerRecord.flavor_id r = target
               ∧ ServerRecord.updated_at r = utc_now env
               ∧ ServerRecord.status r = ServerStatus.ACTIVE
               ∧ record <$> servers db' !! server_id = Some r
         end)
  ∧ (∀ payload r db',
       ServerService.perform_action svc env server_id payload db = (Return r, db') →
       ServerRecord.updated_at r = utc_now env
       ∧ (ServerAction.action payload ≠ "resize" →
          ServerRecord.flavor_id r = Server.flavor_id row)
       ∧ record <$> servers db' !! server_id = Some r).
Proof.
  intros Hrow. split.
  - intros flavor_id payload Hactive Hvalid.
    destruct (model_validate_resize _ _ Hvalid) as (target & -> & Hne & ->).
    exists target. split; [done|].
    assert (Server.status row ≠ ServerStatus.DELETED) as Hlive by congruence.
    rewrite (perform_action_live _ _ _ _ _ Hrow Hlive).
    rewrite Hactive. simpl.
    pose proof (proj2 (truthy_Some target) Hne) as Ht. simpl in Ht. rewrite Ht.
    destruct (flavors db !! target); [|done].
    rewrite (backend_perform_action _ _ _ _ _ _ ServerStatus.ACTIVE Hrow)
      by (by rewrite Hactive).
    eexists _, _. split; [done|]. simpl. rewrite !lookup_insert_eq. done.
  - intros payload r db' Hrun.
    destruct (perform_action_success_inv _ _ _ _ _ _ _ Hrow Hrun)
      as (ns & kwargs & _ & -> & ->).
    simpl. rewrite lookup_insert_eq. split; [done|]. split; [|done].
    intros Hne. apply String.eqb_neq in Hne. by rewrite Hne.
Qed.

(** *** Claim C10 *)

(** C10. A request body becomes a ServerAction only when its action is one
    of start, stop, reboot and resize; confirm_resize is refused by the
    schema. With any action the schema accepts, perform_action on a server
    in VERIFY_RESIZE fails with InvalidStateTransition and changes nothing:
    the confirm_resize row of the engine's table cannot be reached through
    the endpoint. *)
Theorem confirm_resize_unreachable env db server_id row action flavor_id :
  servers db !! server_id = Some row →
  Server.status row = ServerStatus.VERIFY_RESIZE →
  (∀ payload,
     ServerAction.model_validate action flavor_id = Return payload →
     ServerAction.action payload ∈ ["start"; "stop"; "reboot"; "resize"]
     ∧ ServerAction.action payload ≠ "confirm_resize"
     ∧ ServerService.perform_action svc env server_id payload db
       = (Raise (InvalidStateTransitionError "VERIFY_RESIZE"
                   (ServerAction.action payload)), db))
  ∧ (∃ e, ServerAction.model_validate "confirm_resize" flavor_id = Raise e
          ∧ status_code e = 422)
  ∧ ∃ e, Endpoints.server_action svc env server_id action flavor_id db = (Raise e, db).
Proof.
  intros Hrow Hst.
  assert (Server.status row ≠ ServerStatus.DELETED) as Hlive by congruence.
  assert (∀ payload,
    ServerAction.model_validate action flavor_id = Return payload →
    ServerAction.action payload = action
    ∧ action ∈ ["start"; "stop"; "reboot"; "resize"]) as Hschema.
  { intros payload. unfold ServerAction.model_validate.
    case_bool_decide as Hin; [|done]. intros Hv. split; [|exact Hin].
    unfold ServerAction.validate_resize_requires_flavor in Hv. simpl in Hv.
    destruct (_ && _); [done|]. destruct (_ && _); [done|].
    by injection Hv as <-. }
  assert (∀ payload,
    ServerAction.model_validate action flavor_id = Return payload →
    ServerService.perform_action svc env server_id payload db
    = (Raise (InvalidStateTransitionError "VERIFY_RESIZE"
                (ServerAction.action payload)), db)) as Hrej.
  { intros payload Hv. destruct (Hschema _ Hv) as [Ha Hin].
    rewrite (perform_action_live _ _ _ _ _ Hrow Hlive), Hst, Ha.
    rewrite allowed_VERIFY_RESIZE, lookup_insert_ne, lookup_empty; [done|].
    intros <-. rewrite !elem_of_cons, elem_of_nil in Hin. intuition congruence. }
  split; [|split].
  - intros payload Hv. destruct (Hschema _ Hv) as [Ha Hin].
    split; [by rewrite Ha|]. split; [|by apply Hrej].
    rewrite Ha. intros ->.
    rewrite !elem_of_cons, elem_of_nil in Hin. intuition congruence.
  - eexists. split; [reflexivity|done].
  - unfold Endpoints.server_action.
    destruct (ServerAction.model_validate action flavor_id) as [payload|e] eqn:Hv.
    + run. rewrite (Hrej _ eq_refl). eauto.
    + eauto.
Qed.

(** *** Claim C6 *)

Lemma randint_range a b d : a <= b → a <= randint a b d <= b.
Proof.
  intros Hab. unfold randint.
  pose proof (Z.mod_pos_bound d (b - a + 1)). lia.
Qed.

Lemma first_octet_10 n : 0x0A000000 <= n <= 0x0AFFFFFF → octet n 3 = 10.
Proof.
  intros Hn. unfold octet. rewrite Z.shiftr_div_pow2 by lia.
  replace (n / 2 ^ (8 * 3)) with 10; [reflexivity|].
  apply (Z.div_unique_pos n (2 ^ (8 * 3)) 10 (n - 167772160)); lia.
Qed.

Lemma IPv4Address_str_10 n :
  0x0A000000 <= n <= 0x0AFFFFFF → ∃ rest, IPv4Address_str n = "10." +:+ rest.
Proof.
  intros Hn. unfold IPv4Address_str. rewrite (first_octet_10 n Hn).
  eexists. reflexivity.
Qed.

Lemma random_ip_in_10_slash_8 env : in_10_slash_8 (MockOpenStackClient._random_ip env).
Proof.
  exists (randint 0x0A000001 0x0AFFFFFF (draw env)). split; [|reflexivity].
  pose proof (randint_range 0x0A000001 0x0AFFFFFF (draw env)). lia.
Qed.

(** C6. create fails with FlavorNotFound when the flavor ID does not
    resolve via the catalog and, the flavor resolving, with ImageNotFound
    when the image ID does not; in both cases the store is left as it was.
    When both resolve (and the generated UUID is not taken) it adds one
    server record to the store, and nothing else: the record is returned,
    its status is ACTIVE, it carries the name, flavor and image of the
    request, and its IP address is an address of 10.0.0.0/8. *)
Theorem create_checks_references_then_inserts env db payload :
  (flavors db !! ServerCreate.flavor_id payload = None →
   ServerService.create svc env payload db
   = (Raise (FlavorNotFoundError (ServerCreate.flavor_id payload)), db))
  ∧ (is_Some (flavors db !! ServerCreate.flavor_id payload) →
     images db !! ServerCreate.image_id payload = None →
     ServerService.create svc env payload db
     = (Raise (ImageNotFoundError (ServerCreate.image_id payload)), db))
  ∧ (is_Some (flavors db !! ServerCreate.flavor_id payload) →
     is_Some (images db !! ServerCreate.image_id payload) →
     servers db !! uuid4 env = None →
     ∃ r db' ip,
       ServerService.create svc env payload db = (Return r, db')
       ∧ ServerRecord.status r = ServerStatus.ACTIVE
       ∧ ServerRecord.ip_address r = Some ip
       ∧ in_10_slash_8 ip
       ∧ (∃ rest, ip = "10." +:+ rest)
       ∧ ServerRecord.name r = ServerCreate.name payload
       ∧ ServerRecord.flavor_id r = ServerCreate.flavor_id payload
       ∧ ServerRecord.image_id r = ServerCreate.image_id payload
       ∧ servers db !! ServerRecord.id r = None
       ∧ record <$> servers db' !! ServerRecord.id r = Some r
       ∧ (∀ other, other ≠ ServerRecord.id r →
            servers db' !! other = servers db !! other)
       ∧ size (servers db') = S (size (servers db))
       ∧ flavors db' = flavors db ∧ images db' = images db).
Proof.
  unfold ServerService.create. run. split; [|split].
  - intros ->. done.
  - intros [fl ->] Him. simpl. rewrite Him. done.
  - intros [fl ->] [im Him] Hfresh. simpl. rewrite Him. simpl.
    unfold MockOpenStackClient.create_server. run. rewrite Hfresh.
    eexists _, _, _. split; [reflexivity|]. simpl.
    do 2 (split; [done|]). split; [apply random_ip_in_10_slash_8|].
    split.
    { destruct (random_ip_in_10_slash_8 env) as (n & Hn & ->).
      by apply IPv4Address_str_10. }
    do 4 (split; [done|]). rewrite lookup_insert_eq. split; [done|]. split.
    { intros other Hne. by rewrite lookup_insert_ne. }
    split; [by apply map_size_insert_None|done].
Qed.

Lemma length_visible db : length (visible db) = size (live_servers db).
Proof.
  unfold visible, live_servers. generalize (servers db). clear db.
  intros m. induction m as [|k row m Hk _ IH] using map_first_key_ind.
  - by rewrite map_to_list_empty, map_filter_empty, map_size_empty.
  - rewrite (Permutation_length
               (filter_Permutation _ _ _
                  (fmap_Permutation snd _ _ (map_to_list_insert m k row Hk)))).
    rewrite fmap_cons. simpl.
    destruct (decide (not_deleted row)) as [Hlive|Hdead].
    + rewrite filter_cons_True by done.
      rewrite map_filter_insert_True by done.
      rewrite map_size_insert_None; [simpl; by rewrite IH|].
      apply map_lookup_filter_None. by left.
    + rewrite filter_cons_False by done.
      rewrite map_filter_insert_False by done.
      by rewrite delete_id.
Qed.

Lemma list_servers_endpoint_eq db page :
  in_int64 (PaginationParams.limit page) →
  in_int64 (PaginationParams.offset page) →
  Endpoints.list_servers svc page db
  = (Return
       (PaginatedResponse.build
          (Endpoints._to_response
             <$> (record
                    <$> sql_limit_offset (PaginationParams.limit page)
                          (PaginationParams.offset page)
                          (merge_sort newer_first (visible db))))
          (Z.of_nat (length (visible db)))
          (PaginationParams.limit page) (PaginationParams.offset page)), db).
Proof.
  intros Hlimit Hoffset. unfold Endpoints.list_servers. run.
  rewrite (list_servers_eq _ _ _ Hlimit Hoffset). reflexivity.
Qed.

(** *** Claim C8 *)

(** C8. In a paginated response built from N records in total, limit L and
    offset O, next_offset is null exactly when O+L >= N and is O+L
    otherwise, and the reported total is N. The listing endpoint reports as
    total the number of servers that are not DELETED, the same for every
    limit and offset the database can take (those of the signed 64-bit
    range). *)
Theorem pagination_law {T} (items : list T) (N L O : Z)
    (db : Session) (page : PaginationParams.t) :
  let resp := PaginatedResponse.build items N L O in
  (PaginatedResponse.next_offset resp = None ↔ O + L >= N)
  ∧ (¬ O + L >= N → PaginatedResponse.next_offset resp = Some (O + L))
  ∧ PaginatedResponse.total resp = N
  ∧ (in_int64 (PaginationParams.limit page) →
     in_int64 (PaginationParams.offset page) →
     ∃ listing,
       Endpoints.list_servers svc page db = (Return listing, db)
       ∧ PaginatedResponse.total listing = Z.of_nat (size (live_servers db))
       ∧ (PaginatedResponse.next_offset listing = None ↔
          PaginationParams.offset page + PaginationParams.limit page
          >= PaginatedResponse.total listing)
       ∧ (¬ PaginationParams.offset page + PaginationParams.limit page
            >= PaginatedResponse.total listing →
          PaginatedResponse.next_offset listing
          = Some (PaginationParams.offset page + PaginationParams.limit page))).
Proof.
  intros resp. unfold resp, PaginatedResponse.build. simpl.
  assert (∀ l o t : Z,
    ((if o + l <? t then Some (o + l) else None) = None ↔ o + l >= t)
    ∧ (¬ o + l >= t → (if o + l <? t then Some (o + l) else None) = Some (o + l)))
    as Hlaw.
  { intros l o t. destruct (Z.ltb_spec (o + l) t); split;
      first [ split; intros; first [done|lia] | intros; first [done|lia] ]. }
  split; [apply Hlaw|]. split; [apply Hlaw|]. split; [done|].
  intros Hlimit Hoffset.
  eexists. split; [by apply list_servers_endpoint_eq|].
  unfold PaginatedResponse.build.
  cbn [PaginatedResponse.total PaginatedResponse.next_offset].
  rewrite length_visible. split; [done|]. split; apply Hlaw.
Qed.

(** *** Claim C9 *)

Lemma newer_first_total : Total newer_first.
Proof. intros a b. unfold newer_first. lia. Qed.

Lemma newer_first_trans : Transitive newer_first.
Proof. intros a b c. unfold newer_first. lia. Qed.

Lemma sql_limit_offset_sorted {A} (R : relation A) limit offset rows :
  StronglySorted R rows → StronglySorted R (sql_limit_offset limit offset rows).
Proof.
  intros Hs. unfold sql_limit_offset.
  assert (StronglySorted R (drop (Z.to_nat offset) rows)) as Hd.
  { rewrite <- (take_drop (Z.to_nat offset) rows) in Hs.
    by apply StronglySorted_app_1_r in Hs. }
  destruct (limit <? 0); [done|].
  rewrite <- (take_drop (Z.to_nat limit) (drop _ rows)) in Hd.
  by apply StronglySorted_app_1_l in Hd.
Qed.

(** C9. For a limit and an offset the database can take (those of the
    signed 64-bit range), list returns records of servers of the store
    that are not DELETED, most recently created first: the page is the
    window (offset, limit) of an ordering of all such servers by
    descending creation timestamp. The total it returns is the number of
    servers of the store that are not DELETED, whatever the window; the
    store is left as it was. *)
Theorem list_newest_first db limit offset :
  in_int64 limit → in_int64 offset →
  ∃ records total,
    ServerService.list svc limit offset db = (Return (records, total), db)
    ∧ Forall (λ r, ServerRecord.status r ≠ ServerStatus.DELETED) records
    ∧ Forall (λ r, ∃ server_id row,
                servers db !! server_id = Some row ∧ r = record row) records
    ∧ StronglySorted created_desc records
    ∧ total = Z.of_nat (size (live_servers db))
    ∧ (∃ everything,
         everything ≡ₚ visible db
         ∧ StronglySorted newer_first everything
         ∧ records = record <$> sql_limit_offset limit offset everything)
    ∧ (0 <= offset → 0 <= limit →
       Z.of_nat (length records) = Z.min limit (Z.max 0 (total - offset))).
Proof.
  intros Hlimit Hoffset.
  pose proof newer_first_total. pose proof newer_first_trans.
  eexists _, _. split; [by apply list_servers_eq|].
  assert (StronglySorted newer_first (merge_sort newer_first (visible db))) as Hsorted
    by (by apply StronglySorted_merge_sort).
  split; [|split; [|split; [|split; [|split]]]].
  - apply Forall_forall. intros r Hin.
    apply list_elem_of_fmap in Hin as (row' & -> & Hin).
    by apply page_visible, visible_spec in Hin as [Hlive _].
  - apply Forall_forall. intros r Hin.
    apply list_elem_of_fmap in Hin as (row' & -> & Hin).
    apply page_visible, visible_spec in Hin as [_ [k Hk]]. eauto.
  - apply (StronglySorted_fmap _ newer_first); [done|].
    by apply sql_limit_offset_sorted.
  - by rewrite length_visible.
  - exists (merge_sort newer_first (visible db)).
    split; [apply merge_sort_Permutation|]. done.
  - intros Ho Hl. rewrite length_fmap. unfold sql_limit_offset.
    destruct (Z.ltb_spec limit 0) as [|_]; [lia|].
    rewrite length_take, length_drop.
    rewrite (Permutation_length (merge_sort_Permutation newer_first (visible db))).
    lia.
Qed.

End Engine.

(** ** The properties on the running example *)

Section Examples.

Import Scenario.

Example scenario_created : servers db1 !! S1 = Some web01.
Proof. vm_compute. reflexivity. Qed.

Example scenario_deleted : servers db_deleted !! S1 = Some web01_deleted.
Proof. vm_compute. reflexivity. Qed.

(** C1 as the claim words it fails twice. A resize of the ACTIVE server
    web-01 that names a flavor the catalog does not hold is a pair of the
    table, yet perform_action fails with FlavorNotFound. And on a server
    in VERIFY_RESIZE the body confirm_resize, the action of the last row of
    the table, is refused by the schema before the engine runs (a 422). *)
Lemma listed_action_can_fail :
  (servers db1 !! S1 = Some web01
   ∧ Server.status web01 ≠ ServerStatus.DELETED
   ∧ (Server.status web01, "resize", ServerStatus.ACTIVE) ∈ transition_table
   ∧ ServerAction.model_validate "resize" (Some "no-such-flavor")
     = Return (ServerAction.mk "resize" (Some "no-such-flavor"))
   ∧ ServerService.perform_action svc (env 101) S1
       (ServerAction.mk "resize" (Some "no-such-flavor")) db1
     = (Raise (FlavorNotFoundError "no-such-flavor"), db1))
  ∧ (servers db_verify !! S1 = Some verify_resize_row
     ∧ Server.status verify_resize_row ≠ ServerStatus.DELETED
     ∧ (Server.status verify_resize_row, "confirm_resize", ServerStatus.ACTIVE)
         ∈ transition_table
     ∧ ∃ e, Endpoints.server_action svc (env 101) S1 "confirm_resize" None db_verify
            = (Raise e, db_verify)
            ∧ status_code e = 422).
Proof.
  split.
  - split; [vm_compute; reflexivity|]. split; [discriminate|].
    split; [apply allowed_table; reflexivity|].
    split; vm_compute; reflexivity.
  - split; [vm_compute; reflexivity|]. split; [discriminate|].
    split; [apply allowed_table; reflexivity|].
    eexists. split; [vm_compute; reflexivity|reflexivity].
Qed.

Lemma listed_action_succeeds_witness :
  (∃ r db',
     ServerService.perform_action svc (env 101) S1 (ServerAction.mk "stop" None) db1
     = (Return r, db')
     ∧ ServerRecord.status r = ServerStatus.SHUTOFF
     ∧ MockOpenStackClient._server_to_record <$> servers db' !! S1 = Some r).
Proof.
  apply (proj1 (listed_action_succeeds (env 101) db1 S1 web01 "stop" None
                  (ServerAction.mk "stop" None) ServerStatus.SHUTOFF
                  scenario_created ltac:(discriminate) eq_refl
                  ltac:(apply allowed_table; reflexivity)
                  ltac:(intros target Htarget; discriminate Htarget))).
Defined.

Lemma unlisted_action_is_rejected_witness :
  ServerService.perform_action svc (env 101) S1 (ServerAction.mk "start" None) db1
  = (Raise (InvalidStateTransitionError "ACTIVE" "start"), db1)
  ∧ details (InvalidStateTransitionError "ACTIVE" "start")
    = Some [("current_status", "ACTIVE"); ("action", "start")]
  ∧ status_code (InvalidStateTransitionError "ACTIVE" "start") = 409.
Proof.
  apply (unlisted_action_is_rejected (env 101) db1 S1
           (ServerAction.mk "start" None) web01 scenario_created).
  - discriminate.
  - left. apply allowed_None. reflexivity.
Defined.

Lemma deleted_server_visibility_witness :
  ServerService.get svc S1 db_deleted = (Raise (ServerNotFoundError S1), db_deleted)
  ∧ ServerService.perform_action svc (env 103) S1 (ServerAction.mk "stop" None) db_deleted
    = (Raise (ServerNotFoundError S1), db_deleted)
  ∧ ServerService.update svc (env 103) S1 (ServerUpdate.mk (Some "web-02")) db_deleted
    = (Raise (ServerDeletedError S1), db_deleted).
Proof.
  destruct (deleted_server_visibility (env 103) db_deleted S1 web01_deleted
              (ServerUpdate.mk (Some "web-02")) (ServerAction.mk "stop" None) 20 0
              scenario_deleted eq_refl) as (Hget & Hact & Hupd & _).
  exact (conj Hget (conj Hact Hupd)).
Defined.

Lemma missing_id_is_not_found_witness :
  ServerService.get svc S1 seeded = (Raise (ServerNotFoundError S1), seeded)
  ∧ ServerService.update svc (env 100) S1 (ServerUpdate.mk None) seeded
    = (Raise (ServerNotFoundError S1), seeded)
  ∧ ServerService.delete svc (env 100) S1 seeded
    = (Raise (ServerNotFoundError S1), seeded)
  ∧ ServerService.perform_action svc (env 100) S1 (ServerAction.mk "start" None) seeded
    = (Raise (ServerNotFoundError S1), seeded)
  ∧ status_code (ServerNotFoundError S1) = 404.
Proof.
  apply (missing_id_is_not_found (env 100) seeded S1).
  vm_compute. reflexivity.
Defined.

Lemma delete_succeeds_once_witness :
  ∃ db',
    ServerService.delete svc (env 102) S1 db1 = (Return tt, db')
    ∧ db' = with_servers db1 (<[S1 := tombstone (env 102) web01]> (servers db1))
    ∧ (Server.status <$> servers db' !! S1) = Some ServerStatus.DELETED
    ∧ (Server.updated_at <$> servers db' !! S1) = Some 102
    ∧ (∀ other, other ≠ S1 → servers db' !! other = servers db1 !! other)
    ∧ ∀ env',
        ServerService.delete svc env' S1 db' = (Raise (ServerNotFoundError S1), db').
Proof.
  apply (delete_succeeds_once (env 102) db1 S1 web01 scenario_created).
  discriminate.
Defined.

Lemma create_checks_references_then_inserts_witness :
  ∃ r db' ip,
    ServerService.create svc (env 100) (ServerCreate.mk "web-01" F1 I1) seeded
    = (Return r, db')
    ∧ ServerRecord.status r = ServerStatus.ACTIVE
    ∧ ServerRecord.ip_address r = Some ip
    ∧ in_10_slash_8 ip.
Proof.
  destruct (proj2 (proj2 (create_checks_references_then_inserts (env 100) seeded
                            (ServerCreate.mk "web-01" F1 I1))))
    as (r & db' & ip & Hrun & Hst & Hip & Hnet & _).
  - eexists. vm_compute. reflexivity.
  - eexists. vm_compute. reflexivity.
  - vm_compute. reflexivity.
  - exists r, db', ip. exact (conj Hrun (conj Hst (conj Hip Hnet))).
Defined.

Lemma resize_and_timestamp_witness :
  ∃ r db',
    ServerService.perform_action svc (env 101) S1
      (ServerAction.mk "resize" (Some F2)) db1 = (Return r, db')
    ∧ ServerRecord.flavor_id r = F2
    ∧ ServerRecord.updated_at r = 101.
Proof.
  destruct (proj1 (resize_and_timestamp (env 101) db1 S1 web01 scenario_created)
              (Some F2) (ServerAction.mk "resize" (Some F2)) eq_refl eq_refl)
    as (target & Htarget & H).
  injection Htarget as <-.
  replace (flavors db1 !! F2) with (Some (Flavor.mk F2 "m1.small" 1 2048 20)) in H
    by (vm_compute; reflexivity).
  destruct H as (r & db' & Hrun & Hfl & Hup & _).
  exists r, db'. exact (conj Hrun (conj Hfl Hup)).
Defined.

Lemma list_newest_first_witness :
  ∃ records total,
    ServerService.list svc 20 0 db1 = (Return (records, total), db1)
    ∧ Forall (λ r, ServerRecord.status r ≠ ServerStatus.DELETED) records
    ∧ StronglySorted created_desc records
    ∧ total = Z.of_nat (size (live_servers db1)).
Proof.
  destruct (list_newest_first db1 20 0) as (records & total & Hrun & Hlive & _ & Hsorted & Htotal & _).
  - unfold in_int64. lia.
  - unfold in_int64. lia.
  - exists records, total. exact (conj Hrun (conj Hlive (conj Hsorted Htotal))).
Defined.

Lemma confirm_resize_unreachable_witness :
  ∃ e, Endpoints.server_action svc (env 101) S1 "confirm_resize" None db_verify
       = (Raise e, db_verify).
Proof.
  apply (confirm_resize_unreachable (env 101) db_verify S1 verify_resize_row
           "confirm_resize" None).
  - vm_compute. reflexivity.
  - reflexivity.
Defined.

End Examples.

(** ** Every call of the engine, one after another *)

Section Lifecycle.

Local Abbreviation svc := MockOpenStackClient.client.
Local Abbreviation record := MockOpenStackClient._server_to_record.

Implicit Types (db : Session) (env : Env) (row : Server.t).

(** *** What each operation returns and leaves behind *)

Lemma create_outcome env db payload :
  (∃ e, ServerService.create svc env payload db = (Raise e, db)
        ∧ (e = FlavorNotFoundError (ServerCreate.flavor_id payload)
           ∨ e = ImageNotFoundError (ServerCreate.image_id payload)
           ∨ (e = IntegrityError ∧ is_Some (servers db !! uuid4 env))))
  ∨ (∃ row,
       ServerService.create svc env payload db
       = (Return (record row),
          with_servers db (<[Server.id row := row]> (servers db)))
       ∧ row = Server.mk (uuid4 env) (ServerCreate.name payload) ServerStatus.ACTIVE
                 (ServerCreate.flavor_id payload) (ServerCreate.image_id payload)
                 (Some (MockOpenStackClient._random_ip env)) (db_now env) (db_now env)
       ∧ servers db !! Server.id row = None
       ∧ is_Some (flavors db !! Server.flavor_id row)
       ∧ is_Some (images db !! Server.image_id row)).
Proof.
  unfold ServerService.create. run.
  destruct (flavors db !! _) as [fl|] eqn:Hfl; simpl; [|left; eauto].
  destruct (images db !! _) as [im|] eqn:Him; simpl; [|left; eauto 6].
  unfold MockOpenStackClient.create_server. run.
  destruct (servers db !! uuid4 env) as [old|] eqn:Hold; [left; eauto 8|].
  right.
  exists (Server.mk (uuid4 env) (ServerCreate.name payload) ServerStatus.ACTIVE
            (ServerCreate.flavor_id payload) (ServerCreate.image_id payload)
            (Some (MockOpenStackClient._random_ip env)) (db_now env) (db_now env)).
  split; [reflexivity|]. split; [reflexivity|]. simpl.
  rewrite Hfl, Him. eauto.
Qed.

Lemma update_outcome env db server_id payload :
  (∃ e, ServerService.update svc env server_id payload db = (Raise e, db)
        ∧ (e = ServerNotFoundError server_id ∨ e = ServerDeletedError server_id))
  ∨ (∃ row,
       servers db !! server_id = Some row
       ∧ Server.status row ≠ ServerStatus.DELETED
       ∧ let row' :=
           Server.mk (Server.id row)
             (default (Server.name row) (ServerUpdate.name payload))
             (Server.status row) (Server.flavor_id row) (Server.image_id row)
             (Server.ip_address row) (Server.created_at row) (utc_now env) in
         ServerService.update svc env server_id payload db
         = (Return (record row'),
            with_servers db (<[server_id := row']> (servers db)))).
Proof.
  unfold ServerService.update. run.
  destruct (servers db !! server_id) as [row|] eqn:Hrow; simpl; [|left; eauto].
  destruct (decide _) as [Hdead|Hlive]; [left; eauto|].
  right. exists row. split; [done|]. split; [done|].
  unfold MockOpenStackClient.update_server. run. rewrite Hrow. reflexivity.
Qed.

Lemma delete_outcome env db server_id :
  ServerService.delete svc env server_id db = (Raise (ServerNotFoundError server_id), db)
  ∨ (∃ row,
       servers db !! server_id = Some row
       ∧ Server.status row ≠ ServerStatus.DELETED
       ∧ ServerService.delete svc env server_id db
         = (Return tt,
            with_servers db (<[server_id := tombstone env row]> (servers db)))).
Proof.
  unfold ServerService.delete. run.
  destruct (servers db !! server_id) as [row|] eqn:Hrow; simpl; [|by left].
  destruct (decide _) as [Hdead|Hlive]; [by left|].
  right. exists row. split; [done|]. split; [done|].
  unfold MockOpenStackClient.delete_server. run. rewrite Hrow. reflexivity.
Qed.

Lemma perform_action_outcome env db server_id payload :
  (∃ e, ServerService.perform_action svc env server_id payload db = (Raise e, db)
        ∧ (e = ServerNotFoundError server_id
           ∨ (∃ row, servers db !! server_id = Some row
                     ∧ e = InvalidStateTransitionError
                             (ServerStatus.value (Server.status row))
                             (ServerAction.action payload))
           ∨ (∃ f, ServerAction.flavor_id payload = Some f
                   ∧ e = FlavorNotFoundError f)
           ∨ (∃ row msg, servers db !! server_id = Some row
                         ∧ allowed (Server.status row) !! ServerAction.action payload ≠ None
                         ∧ transitions (Server.status row) !! ServerAction.action payload = None
                         ∧ e = ValueError msg)))
  ∨ (∃ row ns flavor_id,
       servers db !! server_id = Some row
       ∧ Server.status row ≠ ServerStatus.DELETED
       ∧ transitions (Server.status row) !! ServerAction.action payload = Some ns
       ∧ (flavor_id = Server.flavor_id row
          ∨ (ServerAction.action payload = "resize"
             ∧ ServerAction.flavor_id payload = Some flavor_id
             ∧ is_Some (flavors db !! flavor_id)))
       ∧ (ServerAction.action payload ≠ "resize" → flavor_id = Server.flavor_id row)
       ∧ ServerService.perform_action svc env server_id payload db
         = (Return (record (transitioned env row ns flavor_id)),
            with_servers db
              (<[server_id := transitioned env row ns flavor_id]> (servers db)))).
Proof.
  destruct (servers db !! server_id) as [row|] eqn:Hrow.
  2:{ left. eexists. split; [|by left].
      unfold ServerService.perform_action. run. by rewrite Hrow. }
  destruct (decide (Server.status row = ServerStatus.DELETED)) as [Hdead|Hlive].
  { left. eexists. split; [|by left].
    unfold ServerService.perform_action. run. rewrite Hrow. simpl.
    destruct (decide _); [done|congruence]. }
  rewrite (perform_action_live _ _ _ _ _ Hrow Hlive).
  destruct (allowed _ !! _) as [ns0|] eqn:Hallowed; [|left; eauto 8].
  destruct (transitions (Server.status row) !! ServerAction.action payload)
    as [ns|] eqn:Hback.
  - destruct (String.eqb (ServerAction.action payload) "resize") eqn:Eb; simpl.
    + pose proof (proj1 (String.eqb_eq _ _) Eb) as Ea.
      destruct (ServerAction.flavor_id payload) as [f|] eqn:Ef; simpl.
      * destruct (String.eqb_spec f ""); simpl.
        -- right. exists row, ns, (Server.flavor_id row).
           rewrite (backend_perform_action _ _ _ _ _ _ _ Hrow Hback).
           rewrite Eb. simpl. rewrite lookup_empty. simpl.
           do 3 (split; [done|]). split; [by left|]. split; [done|reflexivity].
        -- destruct (flavors db !! f) as [fl|] eqn:Hfl; [|left; eauto 10].
           right. exists row, ns, f.
           rewrite (backend_perform_action _ _ _ _ _ _ _ Hrow Hback).
           rewrite Eb. simpl. rewrite lookup_insert_eq. simpl.
           do 3 (split; [done|]). split; [right; rewrite Hfl; eauto|].
           split; [done|reflexivity].
      * right. exists row, ns, (Server.flavor_id row).
        rewrite (backend_perform_action _ _ _ _ _ _ _ Hrow Hback).
        rewrite Eb. simpl. rewrite lookup_empty. simpl.
        do 3 (split; [done|]). split; [by left|]. split; [done|reflexivity].
    + right. exists row, ns, (Server.flavor_id row).
      rewrite (backend_perform_action _ _ _ _ _ _ _ Hrow Hback).
      rewrite Eb.
      do 3 (split; [done|]). split; [by left|]. split; [done|reflexivity].
  - left.
    assert (∀ kw, ∃ msg,
      MockOpenStackClient.perform_action env server_id
        (ServerAction.action payload) kw db = (Raise (ValueError msg), db)) as Hno.
    { intros kw. by apply (backend_perform_action_refused _ _ _ _ _ row). }
    assert (allowed (Server.status row) !! ServerAction.action payload ≠ None)
      as Hyes by (by rewrite Hallowed).
    destruct (_ && _) eqn:Hguard; cbv zeta.
    + destruct (flavors db !! _) eqn:Hfl.
      * destruct (Hno (<["flavor_id" := default "" (ServerAction.flavor_id payload)]> ∅))
          as [msg ->]. eauto 12.
      * destruct (ServerAction.flavor_id payload) as [f|] eqn:Ef;
          [|by rewrite andb_false_r in Hguard].
        simpl. eauto 10.
    + destruct (Hno ∅) as [msg ->]. eauto 12.
Qed.

Lemma list_outcome db limit offset :
  (∃ page, ServerService.list svc limit offset db = (Return page, db))
  ∨ ServerService.list svc limit offset db = (Raise OverflowError, db).
Proof.
  destruct (decide (in_int64 limit ∧ in_int64 offset)) as [[Hl Ho]|Hout].
  - left. eexists. by apply list_servers_eq.
  - right. by apply list_servers_overflow.
Qed.

Lemma serve_effect env req db : effect db (serve env req db).
Proof.
  destruct req as [payload|server_id|limit offset|server_id payload|server_id
                  |server_id payload]; unfold serve.
  - destruct (create_outcome env db payload)
      as [(e & -> & _)|(row & -> & Hdef & Hfresh & Hfl & Him)];
      [by apply effect_none|].
    apply (effect_insert _ _ row); try done. by rewrite Hdef.
  - apply effect_none. unfold ServerService.get. run.
    destruct (servers db !! server_id); simpl; [|done]. by destruct (decide _).
  - apply effect_none.
    by destruct (list_outcome db limit offset) as [[page ->]| ->].
  - destruct (update_outcome env db server_id payload)
      as [(e & -> & _)|(row & Hrow & Hlive & ->)]; [by apply effect_none|].
    simpl. refine (effect_rewrite _ _ server_id row _ Hrow Hlive _ _ _ _ _ _ eq_refl);
      simpl; auto.
  - destruct (delete_outcome env db server_id) as [->|(row & Hrow & Hlive & ->)];
      [by apply effect_none|].
    simpl. refine (effect_rewrite _ _ server_id row _ Hrow Hlive _ _ _ _ _ _ eq_refl);
      simpl; auto.
    right. rewrite !elem_of_cons. auto.
  - destruct (perform_action_outcome env db server_id payload)
      as [(e & -> & _)|(row & ns & fl & Hrow & Hlive & Hns & Hfl & _ & ->)];
      [by apply effect_none|].
    simpl. refine (effect_rewrite _ _ server_id row _ Hrow Hlive _ _ _ _ _ _ eq_refl);
      simpl; auto.
    + right. apply transitions_table in Hns.
      unfold backend_table in Hns. rewrite !elem_of_cons, elem_of_nil in Hns.
      rewrite !elem_of_cons. intuition congruence.
    + intuition.
Qed.

(** *** X1 *)

(** X1. A call of the engine that ends in an exception leaves the store
    exactly as it found it, whichever of the six operations it is. *)
Theorem failed_call_changes_nothing env req db e :
  raised env req db = Some e → serve env req db = db.
Proof.
  destruct req as [payload|server_id|limit offset|server_id payload|server_id
                  |server_id payload]; unfold raised, serve.
  - by destruct (create_outcome env db payload) as [(e' & -> & _)|(row & -> & _)].
  - unfold ServerService.get. run.
    destruct (servers db !! server_id); simpl; [|done]. by destruct (decide _).
  - by destruct (list_outcome db limit offset) as [[page ->]| ->].
  - by destruct (update_outcome env db server_id payload)
      as [(e' & -> & _)|(row & _ & _ & ->)].
  - by destruct (delete_outcome env db server_id) as [->|(row & _ & _ & ->)].
  - by destruct (perform_action_outcome env db server_id payload)
      as [(e' & -> & _)|(row & ns & fl & _ & _ & _ & _ & _ & ->)].
Qed.

(** *** X2 *)

(** X2. No history of calls of the engine changes the catalog: the tables
    of flavors and images are the same after as before. *)
Theorem catalog_is_read_only history db :
  flavors (run history db) = flavors db ∧ images (run history db) = images db.
Proof.
  revert db. induction history as [|[env req] rest IH]; intros db; [done|].
  simpl. destruct (IH (serve env req db)) as [-> ->].
  destruct (serve_effect env req db) as [->|row _ _ _ _ ->|key row row' _ _ _ _ _ _ _ _ ->];
    done.
Qed.

(** *** X3 *)

(** X3. No history of calls removes a server row or changes its identity:
    a key that holds a row keeps holding a row with the same id, image,
    IP address and creation timestamp. *)
Theorem rows_are_never_removed history db key row :
  servers db !! key = Some row →
  ∃ row',
    servers (run history db) !! key = Some row'
    ∧ Server.id row' = Server.id row
    ∧ Server.image_id row' = Server.image_id row
    ∧ Server.ip_address row' = Server.ip_address row
    ∧ Server.created_at row' = Server.created_at row.
Proof.
  revert db row. induction history as [|[env req] rest IH]; intros db row Hrow.
  { exists row. done. }
  simpl.
  assert (∃ mid,
    servers (serve env req db) !! key = Some mid
    ∧ Server.id mid = Server.id row
    ∧ Server.image_id mid = Server.image_id row
    ∧ Server.ip_address mid = Server.ip_address row
    ∧ Server.created_at mid = Server.created_at row) as (mid & Hmid & E1 & E2 & E3 & E4).
  { destruct (serve_effect env req db)
      as [->|new Hfresh _ _ _ ->|key' old row' Hold _ ? ? ? ? _ _ ->]; simpl.
    - by exists row.
    - exists row. rewrite lookup_insert_ne; [done|]. intros <-. congruence.
    - destruct (decide (key' = key)) as [->|Hne].
      + exists row'. rewrite lookup_insert_eq.
        assert (old = row) as -> by congruence. done.
      + exists row. by rewrite lookup_insert_ne. }
  destruct (IH _ _ Hmid) as (row' & Hrow' & ? & ? & ? & ?).
  exists row'. split; [done|]. repeat split; congruence.
Qed.

(** *** X4 *)

(** X4. A tombstone is final: once a row has status DELETED, no history
    of calls changes any of its fields. *)
Theorem tombstone_is_final history db key row :
  servers db !! key = Some row →
  Server.status row = ServerStatus.DELETED →
  servers (run history db) !! key = Some row.
Proof.
  revert db. induction history as [|[env req] rest IH]; intros db Hrow Hdead; [done|].
  simpl. apply IH; [|done].
  destruct (serve_effect env req db)
    as [->|new Hfresh _ _ _ ->|key' old row' Hold Hlive _ _ _ _ _ _ ->]; simpl.
  - done.
  - rewrite lookup_insert_ne; [done|]. intros <-. congruence.
  - rewrite lookup_insert_ne; [done|]. intros <-. congruence.
Qed.

(** *** X5 *)

Lemma serve_settled env req db : settled db → settled (serve env req db).
Proof.
  intros Hs.
  destruct (serve_effect env req db)
    as [->|new Hfresh Hst _ _ ->|key' old row' Hold _ _ _ _ _ Hst _ ->];
    [done| |]; intros key row; simpl.
  - rewrite lookup_insert_Some. intros [[_ <-]|[_ Hrow]]; [|by eapply Hs].
    rewrite Hst, !elem_of_cons. auto.
  - rewrite lookup_insert_Some. intros [[_ <-]|[_ Hrow]]; [|by eapply Hs].
    destruct Hst as [->|Hst]; [by eapply Hs|done].
Qed.

Lemma run_settled history db : settled db → settled (run history db).
Proof.
  revert db. induction history as [|[env req] rest IH]; intros db Hs; [done|].
  simpl. by apply IH, serve_settled.
Qed.

(** X5. The only statuses the engine ever produces are ACTIVE, SHUTOFF and
    DELETED: a table that holds no other status (an empty one, for
    instance) holds no other status after any history of calls. BUILD,
    REBOOT, RESIZE, VERIFY_RESIZE and ERROR never appear. *)
Theorem only_three_statuses_arise history db :
  (servers db = ∅ ∨ settled db) → settled (run history db).
Proof.
  intros [Hempty|Hs]; apply run_settled; [|done].
  intros key row. by rewrite Hempty, lookup_empty.
Qed.

(** *** X6 *)

(** X6. Every row stays filed under its own id: if each key of the table
    holds a row whose id is that key, this is still so after any history
    of calls. *)
Theorem rows_stay_keyed_by_id history db :
  keyed_by_id db → keyed_by_id (run history db).
Proof.
  revert db. induction history as [|[env req] rest IH]; intros db Hk; [done|].
  simpl. apply IH.
  destruct (serve_effect env req db)
    as [->|new Hfresh _ _ _ ->|key' old row' Hold _ Hid _ _ _ _ _ ->];
    [done| |]; intros key row; simpl.
  - rewrite lookup_insert_Some. intros [[<- <-]|[_ Hrow]]; [done|by eapply Hk].
  - rewrite lookup_insert_Some. intros [[<- <-]|[_ Hrow]]; [|by eapply Hk].
    rewrite Hid. by eapply Hk.
Qed.

(** *** X7 *)

(** X7. References stay resolvable: if the flavor and the image of every
    server are in the catalog, they still are after any history of calls
    (create and resize check the references they write). *)
Theorem references_keep_resolving history db :
  references_resolve db → references_resolve (run history db).
Proof.
  revert db. induction history as [|[env req] rest IH]; intros db Hr; [done|].
  simpl. apply IH.
  destruct (serve_effect env req db)
    as [->|new Hfresh _ Hfl Him ->|key' old row' Hold _ _ Him _ _ _ Hfl ->];
    [done| |]; intros key row; simpl.
  - rewrite lookup_insert_Some. intros [[_ <-]|[_ Hrow]]; [done|by eapply Hr].
  - rewrite lookup_insert_Some. intros [[_ <-]|[_ Hrow]]; [|by eapply Hr].
    destruct (Hr _ _ Hold) as [Hfl0 Him0]. rewrite Him. split; [|done].
    destruct Hfl as [->|Hfl]; done.
Qed.

(** *** X8 *)

(** The two tables differ in one row only. *)
Lemma table_gap s a :
  allowed s !! a ≠ None → transitions s !! a = None →
  s = ServerStatus.VERIFY_RESIZE ∧ a = "confirm_resize".
Proof.
  intros Hyes Hno. destruct (allowed s !! a) as [ns|] eqn:Hallowed; [|done].
  apply allowed_table in Hallowed.
  assert ((s, a, ns) ∉ backend_table) as Hout.
  { intros Hin. apply transitions_table in Hin. congruence. }
  unfold transition_table in Hallowed. unfold backend_table in Hout.
  rewrite !elem_of_cons, elem_of_nil in Hallowed.
  rewrite !elem_of_cons, elem_of_nil in Hout.
  destruct Hallowed as [E|[E|[E|[E|[E|[]]]]]]; [exfalso; apply Hout; auto..|].
  by injection E as -> -> _.
Qed.

(** X8. On a store that holds only the statuses the engine produces (see
    X5), and after any history of calls on it, no call of the engine ends
    in the backend's ValueError: the engine's own checks always come
    first. *)
Theorem backend_error_never_surfaces history db env req msg :
  settled db → raised env req (run history db) ≠ Some (ValueError msg).
Proof.
  intros Hs%(run_settled history). generalize dependent (run history db).
  clear db. intros db Hs.
  destruct req as [payload|server_id|limit offset|server_id payload|server_id
                  |server_id payload]; unfold raised.
  - destruct (create_outcome env db payload)
      as [(e & -> & [->|[->|[-> _]]])|(row & -> & _)]; done.
  - unfold ServerService.get. run.
    destruct (servers db !! server_id); simpl; [|done]. by destruct (decide _).
  - by destruct (list_outcome db limit offset) as [[page ->]| ->].
  - destruct (update_outcome env db server_id payload)
      as [(e & -> & [->| ->])|(row & _ & _ & ->)]; done.
  - destruct (delete_outcome env db server_id) as [->|(row & _ & _ & ->)]; done.
  - destruct (perform_action_outcome env db server_id payload)
      as [(e & -> & He)|(row & ns & fl & _ & _ & _ & _ & _ & ->)]; [|done].
    simpl. destruct He as [->|[(row & _ & ->)|[(f & _ & ->)|(row & m & Hrow & Hyes & Hno & ->)]]];
      try done.
    destruct (table_gap _ _ Hyes Hno) as [Hst _].
    specialize (Hs _ _ Hrow). rewrite Hst, !elem_of_cons, elem_of_nil in Hs.
    intuition congruence.
Qed.

(** *** X9 *)

(** Membership in a short literal list. *)
Ltac one_of := simpl; rewrite !elem_of_cons; auto 10.

(** X9. [POST /servers/{id}/action] answers 202, 404, 409 or 422, on any
    store and for any body: the backend's ValueError (a 500) cannot be
    reached through the endpoint. *)
Theorem action_endpoint_status env db server_id action flavor_id :
  Routes.http_status Routes.HTTP_202_ACCEPTED
    (fst (Endpoints.server_action svc env server_id action flavor_id db))
  ∈ [202; 404; 409; 422].
Proof.
  unfold Endpoints.server_action.
  destruct (ServerAction.model_validate action flavor_id) as [payload|e] eqn:Hv.
  2:{ revert Hv. unfold ServerAction.model_validate,
        ServerAction.validate_resize_requires_flavor.
      case_bool_decide; [|intros [= <-]; one_of].
      destruct (_ && _); [intros [= <-]; one_of|].
      destruct (_ && _); [intros [= <-]; one_of|done]. }
  assert (ServerAction.action payload ∈ ActionType) as Hin.
  { revert Hv. unfold ServerAction.model_validate,
      ServerAction.validate_resize_requires_flavor.
    case_bool_decide; [|done].
    destruct (_ && _); [done|]. destruct (_ && _); [done|]. by intros [= <-]. }
  run.
  destruct (perform_action_outcome env db server_id payload)
    as [(e & -> & He)|(row & ns & fl & _ & _ & _ & _ & _ & ->)];
    [|one_of].
  simpl.
  destruct He as [->|[(row & _ & ->)|[(f & _ & ->)|(row & m & _ & Hyes & Hno & ->)]]];
    simpl; try one_of.
  destruct (table_gap _ _ Hyes Hno) as [_ Ha]. rewrite Ha in Hin.
  unfold ActionType in Hin. rewrite !elem_of_cons, elem_of_nil in Hin.
  intuition congruence.
Qed.

(** *** X10 *)


(** *** X11 *)

(** X11. Round trip: a server that create returned is what get returns for
    its id on the store create left. *)
Theorem create_then_get env db payload r db' :
  ServerService.create svc env payload db = (Return r, db') →
  ServerService.get svc (ServerRecord.id r) db' = (Return r, db').
Proof.
  destruct (create_outcome env db payload) as [(e & -> & _)|(row & -> & -> & _)];
    [done|].
  intros [= <- <-]. unfold ServerService.get. run. rewrite lookup_insert_eq.
  reflexivity.
Qed.

(** *** X12 *)

(** X12. Round trip: the server a lifecycle action returned (after a
    resize, with its new flavor) is what get returns for that id on the
    store the action left. *)
Theorem action_then_get env db server_id payload r db' :
  ServerService.perform_action svc env server_id payload db = (Return r, db') →
  ServerService.get svc server_id db' = (Return r, db').
Proof.
  destruct (perform_action_outcome env db server_id payload)
    as [(e & -> & _)|(row & ns & fl & _ & _ & Hns & _ & _ & ->)]; [done|].
  intros [= <- <-]. unfold ServerService.get. run. rewrite lookup_insert_eq.
  simpl. destruct (decide _) as [Hdead|_]; [|done].
  apply transitions_table in Hns. rewrite Hdead in Hns.
  unfold backend_table in Hns. rewrite !elem_of_cons, elem_of_nil in Hns.
  intuition congruence.
Qed.

(** *** X13 *)

(** X13. update on an existing server that is not DELETED succeeds: the
    name becomes the one given, or stays when none is given, the update
    timestamp becomes the current time, every other field and every other
    row stays, and get then returns the same record. *)
Theorem update_renames env db server_id payload row :
  servers db !! server_id = Some row →
  Server.status row ≠ ServerStatus.DELETED →
  ∃ r db',
    ServerService.update svc env server_id payload db = (Return r, db')
    ∧ ServerRecord.name r = default (Server.name row) (ServerUpdate.name payload)
    ∧ ServerRecord.updated_at r = utc_now env
    ∧ ServerRecord.id r = Server.id row
    ∧ ServerRecord.status r = Server.status row
    ∧ ServerRecord.flavor_id r = Server.flavor_id row
    ∧ ServerRecord.image_id r = Server.image_id row
    ∧ ServerRecord.ip_address r = Server.ip_address row
    ∧ ServerRecord.created_at r = Server.created_at row
    ∧ (∀ other, other ≠ server_id → servers db' !! other = servers db !! other)
    ∧ ServerService.get svc server_id db' = (Return r, db').
Proof.
  intros Hrow Hlive.
  destruct (update_outcome env db server_id payload)
    as [(e & He & _)|(row0 & Hrow0 & _ & Hrun)].
  { exfalso. revert He. unfold ServerService.update. run. rewrite Hrow. simpl.
    destruct (decide _); [done|].
    unfold MockOpenStackClient.update_server. run. by rewrite Hrow. }
  assert (row0 = row) as -> by congruence. cbv zeta in Hrun.
  eexists _, _. split; [exact Hrun|]. simpl. do 8 (split; [done|]). split.
  - intros other Hne. by rewrite lookup_insert_ne.
  - unfold ServerService.get. run. rewrite lookup_insert_eq. simpl.
    by destruct (decide _).
Qed.

(** *** X14 *)

(** X14. Stop and start undo each other: on an ACTIVE server, stop gives
    SHUTOFF; a second stop is then rejected with InvalidStateTransition
    and changes nothing; start gives ACTIVE again, with the name and the
    flavor the server had. *)
Theorem stop_then_start env1 env2 db server_id row :
  servers db !! server_id = Some row →
  Server.status row = ServerStatus.ACTIVE →
  ∃ r1 db1 r2 db2,
    ServerService.perform_action svc env1 server_id (ServerAction.mk "stop" None) db
    = (Return r1, db1)
    ∧ ServerRecord.status r1 = ServerStatus.SHUTOFF
    ∧ ServerService.perform_action svc env2 server_id (ServerAction.mk "stop" None) db1
      = (Raise (InvalidStateTransitionError "SHUTOFF" "stop"), db1)
    ∧ ServerService.perform_action svc env2 server_id (ServerAction.mk "start" None) db1
      = (Return r2, db2)
    ∧ ServerRecord.status r2 = ServerStatus.ACTIVE
    ∧ ServerRecord.name r2 = Server.name row
    ∧ ServerRecord.flavor_id r2 = Server.flavor_id row
    ∧ ServerRecord.updated_at r2 = utc_now env2.
Proof.
  intros Hrow Hactive.
  assert (Server.status row ≠ ServerStatus.DELETED) as Hlive by congruence.
  eexists _, _, _, _. split.
  { rewrite (perform_action_live _ _ _ _ _ Hrow Hlive). rewrite Hactive. simpl.
    apply (backend_perform_action _ _ _ _ _ row ServerStatus.SHUTOFF); [done|].
    by rewrite Hactive. }
  simpl. split; [done|].
  set (row1 := transitioned env1 row ServerStatus.SHUTOFF (Server.flavor_id row)).
  set (db1 := with_servers db (<[server_id := row1]> (servers db))).
  assert (servers db1 !! server_id = Some row1) as Hrow1
    by (simpl; by rewrite lookup_insert_eq).
  assert (Server.status row1 ≠ ServerStatus.DELETED) as Hlive1 by done.
  split; [|split].
  - by rewrite (perform_action_live _ _ _ _ _ Hrow1 Hlive1).
  - rewrite (perform_action_live _ _ _ _ _ Hrow1 Hlive1). simpl.
    by apply (backend_perform_action _ _ _ _ _ row1 ServerStatus.ACTIVE).
  - done.
Qed.

(** *** X15 *)

Lemma live_size_insert_fresh (m : gmap string Server.t) key row :
  m !! key = None → not_deleted row →
  size (filter (λ kv, not_deleted kv.2) (<[key := row]> m))
  = S (size (filter (λ kv : string * Server.t, not_deleted kv.2) m)).
Proof.
  intros Hfresh Hlive. rewrite map_filter_insert_True by done.
  apply map_size_insert_None. apply map_lookup_filter_None. by left.
Qed.

Lemma live_size_tombstone (m : gmap string Server.t) key row row' :
  m !! key = Some row → not_deleted row → ¬ not_deleted row' →
  S (size (filter (λ kv, not_deleted kv.2) (<[key := row']> m)))
  = size (filter (λ kv : string * Server.t, not_deleted kv.2) m).
Proof.
  intros Hrow Hlive Hdead.
  rewrite map_filter_insert_False by done. rewrite map_filter_delete.
  set (live := filter (λ kv : string * Server.t, not_deleted kv.2) m).
  assert (live !! key = Some row) as Hin by (by apply map_lookup_filter_Some).
  rewrite <- (insert_delete_id live key row Hin) at 2.
  symmetry. apply map_size_insert_None, lookup_delete_eq.
Qed.

(** X15. The total that list reports follows the store: it is one more
    after a successful create and one less after a successful delete,
    whatever windows are asked for, among those the database can take
    (limit and offset of the signed 64-bit range). *)
Theorem total_follows_create_and_delete env db limit offset :
  in_int64 limit → in_int64 offset →
  ∃ records total,
    ServerService.list svc limit offset db = (Return (records, total), db)
    ∧ (∀ payload r db' limit' offset',
         in_int64 limit' → in_int64 offset' →
         ServerService.create svc env payload db = (Return r, db') →
         ∃ records',
           ServerService.list svc limit' offset' db'
           = (Return (records', total + 1), db'))
    ∧ (∀ server_id db' limit' offset',
         in_int64 limit' → in_int64 offset' →
         ServerService.delete svc env server_id db = (Return tt, db') →
         ∃ records',
           ServerService.list svc limit' offset' db'
           = (Return (records', total - 1), db')).
Proof.
  intros Hlimit Hoffset.
  eexists _, _. split; [by apply list_servers_eq|]. split.
  - intros payload r db' limit' offset' Hlimit' Hoffset'.
    destruct (create_outcome env db payload)
      as [(e & -> & _)|(row & -> & Hdef & Hfresh & _)]; [done|].
    intros [= <- <-]. eexists. rewrite list_servers_eq by done.
    match goal with
    | |- (Return (_, Z.of_nat ?n), _) = (Return (_, Z.of_nat ?m + 1), _) =>
        assert (n = S m) as ->; [|by rewrite Nat2Z.inj_succ]
    end.
    rewrite !length_visible. unfold live_servers. simpl.
    apply live_size_insert_fresh; [done|].
    unfold not_deleted. by rewrite Hdef.
  - intros server_id db' limit' offset' Hlimit' Hoffset'.
    destruct (delete_outcome env db server_id) as [->|(row & Hrow & Hlive & ->)];
      [done|].
    intros [= <-]. eexists. rewrite list_servers_eq by done.
    match goal with
    | |- (Return (_, Z.of_nat ?n), _) = (Return (_, Z.of_nat ?m - 1), _) =>
        assert (S n = m) as <-;
          [|by rewrite Nat2Z.inj_succ, <- Z.add_1_r, Z.add_simpl_r]
    end.
    rewrite !length_visible. unfold live_servers. simpl.
    apply (live_size_tombstone (servers db) server_id row (tombstone env row));
      [done|done|].
    unfold not_deleted. simpl. by intros H.
Qed.

(** *** X16 *)

Lemma sql_limit_offset_adjacent {A} (l1 l2 offset : Z) (rows : list A) :
  0 <= offset → 0 <= l1 → 0 <= l2 →
  (sql_limit_offset l1 offset rows ++ sql_limit_offset l2 (offset + l1) rows)%list
  = sql_limit_offset (l1 + l2) offset rows.
Proof.
  intros Ho H1 H2. unfold sql_limit_offset.
  destruct (Z.ltb_spec l1 0); [lia|]. destruct (Z.ltb_spec l2 0); [lia|].
  destruct (Z.ltb_spec (l1 + l2) 0); [lia|].
  rewrite !Z2Nat.inj_add by lia. rewrite <- drop_drop. apply take_take_drop.
Qed.

(** X16. Consecutive pages of list fit together: the page of l1 servers at
    an offset followed by the page of l2 servers right after it is the page
    of l1 + l2 servers at that offset, so paging neither skips nor repeats
    a server while the store stays the same. The limits and offsets of the
    three calls are non-negative and within the signed 64-bit range. *)
Theorem consecutive_pages_join db (l1 l2 offset : Z) :
  0 <= offset → 0 <= l1 → 0 <= l2 →
  offset + l1 < 2 ^ 63 → l1 + l2 < 2 ^ 63 →
  ∃ first second both total,
    ServerService.list svc l1 offset db = (Return (first, total), db)
    ∧ ServerService.list svc l2 (offset + l1) db = (Return (second, total), db)
    ∧ ServerService.list svc (l1 + l2) offset db = (Return (both, total), db)
    ∧ (first ++ second)%list = both.
Proof.
  intros Ho H1 H2 Hend Hboth. eexists _, _, _, _.
  split; [apply list_servers_eq; unfold in_int64; lia|].
  split; [apply list_servers_eq; unfold in_int64; lia|].
  split; [apply list_servers_eq; unfold in_int64; lia|].
  rewrite <- fmap_app. f_equal. by apply sql_limit_offset_adjacent.
Qed.

(** *** X17 *)


(** *** X18 *)

(** X18. The request schema accepts a body exactly when it is a resize
    with a non-empty flavor_id, or a start, stop or reboot without any
    flavor_id; the value it builds carries the action and the flavor_id of
    the body unchanged. *)
Theorem schema_accepts_exactly action flavor_id :
  ((∃ payload, ServerAction.model_validate action flavor_id = Return payload)
   ↔ (action = "resize" ∧ ∃ target, flavor_id = Some target ∧ target ≠ "")
     ∨ (action ∈ ["start"; "stop"; "reboot"] ∧ flavor_id = None))
  ∧ ∀ payload,
      ServerAction.model_validate action flavor_id = Return payload →
      payload = ServerAction.mk action flavor_id.
Proof.
  unfold ServerAction.model_validate, ServerAction.validate_resize_requires_flavor,
    ActionType.
  split.
  2:{ intros payload. case_bool_decide; [|done]. simpl.
      destruct (_ && _); [done|]. destruct (_ && _); [done|]. by intros [= <-]. }
  split.
  - intros [payload Hv]. revert Hv. case_bool_decide as Hin; [|done].
    rewrite !elem_of_cons, elem_of_nil in Hin. simpl.
    destruct (String.eqb_spec action "resize") as [->|Hne]; simpl.
    + destruct flavor_id as [target|]; simpl; [|done].
      destruct (String.eqb_spec target ""); simpl; [done|]. eauto.
    + destruct flavor_id as [target|]; simpl.
      * done.
      * intros _. right. rewrite !elem_of_cons. intuition.
  - intros [[-> (target & -> & Hne)]|[Hin ->]].
    + rewrite bool_decide_true by (rewrite !elem_of_cons; auto).
      simpl. apply String.eqb_neq in Hne. rewrite Hne. simpl. eauto.
    + rewrite !elem_of_cons, elem_of_nil in Hin.
      rewrite bool_decide_true by (rewrite !elem_of_cons; intuition).
      assert (action ≠ "resize") as Hne by (intros ->; intuition congruence).
      apply String.eqb_neq in Hne. simpl. rewrite Hne. simpl. eauto.
Qed.

End Lifecycle.

(** ** The catalog *)

Section Catalog.

Local Abbreviation svc := MockOpenStackClient.client.

Implicit Types (db : Session) (env : Env).







(** *** X19 *)

Lemma create_server_raises env db name flavor_id image_id e db' :
  MockOpenStackClient.create_server env name flavor_id image_id db = (Raise e, db') →
  e = IntegrityError.
Proof.
  unfold MockOpenStackClient.create_server. run.
  destruct (servers db !! uuid4 env); [by intros [= <- _]|done].
Qed.

(** X19. The reference checks of create are those of the catalog services:
    create fails with FlavorNotFound exactly when the flavor service finds
    no flavor under that id, and with ImageNotFound exactly when the flavor
    is found and the image service finds no image under the image id. *)
Theorem create_checks_agree_with_catalog env db payload :
  let flavor_id := ServerCreate.flavor_id payload in
  let image_id := ServerCreate.image_id payload in
  (ServerService.create svc env payload db = (Raise (FlavorNotFoundError flavor_id), db)
   ↔ FlavorService.get svc flavor_id db = (Raise (FlavorNotFoundError flavor_id), db))
  ∧ (ServerService.create svc env payload db = (Raise (ImageNotFoundError image_id), db)
     ↔ (∃ found, FlavorService.get svc flavor_id db = (Return found, db))
       ∧ ImageService.get svc image_id db = (Raise (ImageNotFoundError image_id), db)).
Proof.
  intros flavor_id image_id.
  unfold ServerService.create, FlavorService.get, ImageService.get,
    MockOpenStackClient.create_server.
  run. fold flavor_id image_id.
  destruct (flavors db !! flavor_id) as [fl|]; simpl;
    destruct (images db !! image_id) as [im|]; simpl;
    try destruct (servers db !! uuid4 env); simpl;
    (split; split); try done; try (intros; discriminate);
    try (intros [[found ?] ?]; discriminate); eauto;
    intros Hclash%create_server_raises; discriminate.
Qed.

(** *** X20 *)


(** *** X21 *)


(** *** X22 *)

Lemma head_map_to_list {A} (m : gmap string A) :
  head (map_to_list m) = None ↔ m = ∅.
Proof.
  rewrite <- map_to_list_empty_iff. by destruct (map_to_list m).
Qed.

Lemma seed_table_again {A} (seed : gmap string A → gmap string A) m :
  (m = ∅ → seed m ≠ ∅) →
  match
    head (map_to_list
            match head (map_to_list m) with None => seed m | Some _ => m end)
  with
  | None => seed match head (map_to_list m) with None => seed m | Some _ => m end
  | Some _ => match head (map_to_list m) with None => seed m | Some _ => m end
  end
  = match head (map_to_list m) with None => seed m | Some _ => m end.
Proof.
  intros Hne.
  set (m1 := match head (map_to_list m) with None => seed m | Some _ => m end).
  destruct (head (map_to_list m1)) eqn:H1; [done|].
  apply head_map_to_list in H1. exfalso. unfold m1 in H1.
  destruct (head (map_to_list m)) eqn:H0.
  - by rewrite H1, map_to_list_empty in H0.
  - apply head_map_to_list in H0. by apply Hne.
Qed.

(** X22. Seeding happens once per table: seed_data leaves the servers
    alone and leaves a catalog table that already holds a row as it is; on
    an empty table it files every seed row under its fixed id (5 flavors, 4
    images); and running it again changes nothing. *)
Theorem seed_data_seeds_once db :
  ∃ db1,
    Main.seed_data db = (Return tt, db1)
    ∧ servers db1 = servers db
    ∧ (flavors db ≠ ∅ → flavors db1 = flavors db)
    ∧ (images db ≠ ∅ → images db1 = images db)
    ∧ (flavors db = ∅ →
       size (flavors db1) = 5%nat
       ∧ ∀ f, f ∈ Main.SEED_FLAVORS → flavors db1 !! Flavor.id f = Some f)
    ∧ (images db = ∅ →
       size (images db1) = 4%nat
       ∧ ∀ i, i ∈ Main.SEED_IMAGES → images db1 !! Image.id i = Some i)
    ∧ Main.seed_data db1 = (Return tt, db1).
Proof.
  assert (flavors db = ∅ →
          size (Main.add_flavors Main.SEED_FLAVORS (flavors db)) = 5%nat
          ∧ ∀ f, f ∈ Main.SEED_FLAVORS →
              Main.add_flavors Main.SEED_FLAVORS (flavors db) !! Flavor.id f = Some f)
    as Hflavors.
  { intros ->. split; [vm_compute; reflexivity|]. intros f Hf.
    unfold Main.SEED_FLAVORS in Hf. rewrite !elem_of_cons, elem_of_nil in Hf.
    destruct Hf as [->|[->|[->|[->|[->|[]]]]]]; vm_compute; reflexivity. }
  assert (images db = ∅ →
          size (Main.add_images Main.SEED_IMAGES (images db)) = 4%nat
          ∧ ∀ i, i ∈ Main.SEED_IMAGES →
              Main.add_images Main.SEED_IMAGES (images db) !! Image.id i = Some i)
    as Himages.
  { intros ->. split; [vm_compute; reflexivity|]. intros i Hi.
    unfold Main.SEED_IMAGES in Hi. rewrite !elem_of_cons, elem_of_nil in Hi.
    destruct Hi as [->|[->|[->|[->|[]]]]]; vm_compute; reflexivity. }
  eexists. split; [reflexivity|].
  unfold Main.seed_data. cbn [servers flavors images].
  split; [done|]. split; [|split; [|split; [|split]]].
  - intros Hne. destruct (head (map_to_list (flavors db))) eqn:Hf; [done|].
    by apply head_map_to_list in Hf.
  - intros Hne. destruct (head (map_to_list (images db))) eqn:Hi; [done|].
    by apply head_map_to_list in Hi.
  - intros Hempty. pose proof (proj2 (head_map_to_list _) Hempty) as ->.
    by apply Hflavors.
  - intros Hempty. pose proof (proj2 (head_map_to_list _) Hempty) as ->.
    by apply Himages.
  - rewrite (seed_table_again (Main.add_flavors Main.SEED_FLAVORS) (flavors db)).
    + rewrite (seed_table_again (Main.add_images Main.SEED_IMAGES) (images db));
        [done|].
      intros Hempty E. destruct (Himages Hempty) as [Hsize _].
      by rewrite E, map_size_empty in Hsize.
    + intros Hempty E. destruct (Hflavors Hempty) as [Hsize _].
      by rewrite E, map_size_empty in Hsize.
Qed.

End Catalog.

(** ** Order of the checks and frame of an action *)

Section Checks.

Local Abbreviation svc := MockOpenStackClient.client.
Local Abbreviation record := MockOpenStackClient._server_to_record.

Implicit Types (db : Session) (env : Env) (row : Server.t).

(** *** X23 *)

(** X23. The state check comes before the flavor check: a resize of an
    existing server that is neither ACTIVE nor DELETED fails with
    InvalidStateTransition whatever flavor it names, also one that does
    not resolve, and changes nothing. *)
Theorem state_check_precedes_flavor_check env db server_id row flavor_id :
  servers db !! server_id = Some row →
  Server.status row ≠ ServerStatus.ACTIVE →
  Server.status row ≠ ServerStatus.DELETED →
  ServerService.perform_action svc env server_id
    (ServerAction.mk "resize" flavor_id) db
  = (Raise (InvalidStateTransitionError
              (ServerStatus.value (Server.status row)) "resize"), db).
Proof.
  intros Hrow Hne Hlive. rewrite (perform_action_live _ _ _ _ _ Hrow Hlive).
  assert (allowed (Server.status row) !! "resize" = None) as Hno.
  { apply allowed_None. intros ns Hin. unfold transition_table in Hin.
    rewrite !elem_of_cons, elem_of_nil in Hin. intuition congruence. }
  simpl. by rewrite Hno.
Qed.

(** *** X24 *)

(** X24. After a successful delete the server is gone for readers and
    frozen for writers: on the store delete left, get and every action
    fail with ServerNotFound, update fails with ServerDeleted, no listing
    (for a limit and an offset of the signed 64-bit range) holds a record
    with that id (rows being filed under their id), and none of these
    calls changes the store. *)
Theorem delete_then_invisible env env' db server_id db'
    (upd : ServerUpdate.t) (act : ServerAction.t) (limit offset : Z) :
  keyed_by_id db →
  ServerService.delete svc env server_id db = (Return tt, db') →
  ServerService.get svc server_id db' = (Raise (ServerNotFoundError server_id), db')
  ∧ ServerService.perform_action svc env' server_id act db'
    = (Raise (ServerNotFoundError server_id), db')
  ∧ ServerService.update svc env' server_id upd db'
    = (Raise (ServerDeletedError server_id), db')
  ∧ (in_int64 limit → in_int64 offset →
     ∃ records total,
       ServerService.list svc limit offset db' = (Return (records, total), db')
       ∧ Forall (λ r, ServerRecord.id r ≠ server_id) records).
Proof.
  intros Hkeyed.
  destruct (delete_outcome env db server_id) as [->|(row & Hrow & Hlive & ->)];
    [done|].
  intros [= <-].
  unfold ServerService.get, ServerService.perform_action, ServerService.update.
  run. rewrite lookup_insert_eq. simpl.
  do 3 (split; [done|]).
  intros Hlimit Hoffset.
  eexists _, _. split; [by apply list_servers_eq|].
  apply Forall_forall. intros r Hr.
  apply list_elem_of_fmap in Hr as (row' & -> & Hin).
  apply page_visible, visible_spec in Hin as [Hlive' [key Hkey]].
  simpl in Hkey. apply lookup_insert_Some in Hkey as [[_ <-]|[Hne Hkey]].
  - by destruct Hlive'.
  - simpl. by rewrite (Hkeyed _ _ Hkey).
Qed.

(** *** X25 *)

(** X25. A successful lifecycle action touches one row and three columns:
    the returned server differs from the stored one at most in status,
    flavor_id and update timestamp, and every other row of the store, as
    well as the catalog, is as before. *)
Theorem action_frame env db server_id payload r db' :
  ServerService.perform_action svc env server_id payload db = (Return r, db') →
  ∃ row,
    servers db !! server_id = Some row
    ∧ ServerRecord.id r = Server.id row
    ∧ ServerRecord.name r = Server.name row
    ∧ ServerRecord.image_id r = Server.image_id row
    ∧ ServerRecord.ip_address r = Server.ip_address row
    ∧ ServerRecord.created_at r = Server.created_at row
    ∧ ServerRecord.status r ∈ [ServerStatus.ACTIVE; ServerStatus.SHUTOFF]
    ∧ (∀ other, other ≠ server_id → servers db' !! other = servers db !! other)
    ∧ flavors db' = flavors db
    ∧ images db' = images db.
Proof.
  destruct (perform_action_outcome env db server_id payload)
    as [(e & -> & _)|(row & ns & fl & Hrow & _ & Hns & _ & _ & ->)]; [done|].
  intros [= <- <-]. exists row. simpl. do 6 (split; [done|]). split.
  - apply transitions_table in Hns. unfold backend_table in Hns.
    rewrite !elem_of_cons, elem_of_nil in Hns. rewrite !elem_of_cons.
    intuition congruence.
  - split; [|done]. intros other Hne. by rewrite lookup_insert_ne.
Qed.

(** *** X26 *)

(** X26. The engine itself does not insist on a target flavor: a resize
    that reaches it without flavor_id, or with an empty one, succeeds on
    an ACTIVE server, consults no flavor and leaves flavor_id as it was.
    Only the request schema refuses such a body. *)
Theorem resize_without_flavor env db server_id row flavor_id :
  servers db !! server_id = Some row →
  Server.status row = ServerStatus.ACTIVE →
  flavor_id = None ∨ flavor_id = Some "" →
  (∃ r db',
     ServerService.perform_action svc env server_id
       (ServerAction.mk "resize" flavor_id) db = (Return r, db')
     ∧ ServerRecord.flavor_id r = Server.flavor_id row
     ∧ ServerRecord.status r = ServerStatus.ACTIVE
     ∧ ServerRecord.updated_at r = utc_now env)
  ∧ ∃ e, ServerAction.model_validate "resize" flavor_id = Raise e
         ∧ status_code e = 422.
Proof.
  intros Hrow Hactive Hfl.
  assert (Server.status row ≠ ServerStatus.DELETED) as Hlive by congruence.
  assert (truthy flavor_id = false) as Hfalse by (by destruct Hfl as [->| ->]).
  split.
  - rewrite (perform_action_live _ _ _ _ _ Hrow Hlive). rewrite Hactive. simpl.
    rewrite Hfalse. simpl.
    rewrite (backend_perform_action _ _ _ _ _ row ServerStatus.ACTIVE Hrow)
      by (by rewrite Hactive).
    eexists _, _. split; [reflexivity|]. simpl. by rewrite lookup_empty.
  - destruct Hfl as [->| ->]; eexists; (split; [reflexivity|done]).
Qed.

(** *** X27 *)

(** X27. A limit or an offset beyond the signed 64-bit range cannot be
    bound as a parameter of the query: the listing of servers, of flavors
    and of images then fails with the driver's OverflowError and leaves
    the store as it was. The query parameters of [GET /servers] bound the
    limit but not the offset from above, so an accepted offset of 2^63 or
    more is answered 500. *)
Theorem window_out_of_range db limit offset :
  ¬ (in_int64 limit ∧ in_int64 offset) →
  ServerService.list svc limit offset db = (Raise OverflowError, db)
  ∧ FlavorService.list MockCatalog.list_flavors limit offset db
    = (Raise OverflowError, db)
  ∧ ImageService.list MockCatalog.list_images limit offset db
    = (Raise OverflowError, db)
  ∧ ∀ (lim off : option Z) page,
      PaginationParams.parse lim off = Return page →
      2 ^ 63 <= PaginationParams.offset page →
      Endpoints.list_servers svc page db = (Raise OverflowError, db)
      ∧ Routes.http_status Routes.HTTP_200_OK
          (fst (Endpoints.list_servers svc page db)) = 500.
Proof.
  intros Hout. split; [by apply list_servers_overflow|]. split; [|split].
  - unfold FlavorService.list, MockCatalog.list_flavors, select_window. run.
    by rewrite bool_decide_false.
  - unfold ImageService.list, MockCatalog.list_images, select_window. run.
    by rewrite bool_decide_false.
  - intros lim off page _ Hbig.
    assert (Endpoints.list_servers svc page db = (Raise OverflowError, db)) as ->.
    { unfold Endpoints.list_servers. run.
      rewrite list_servers_overflow; [done|].
      unfold in_int64. intros [_ [_ Hlt]]. lia. }
    done.
Qed.

End Checks.

(** ** The further properties on the running example *)

Section MoreExamples.

Import Scenario Story.

Local Abbreviation record := MockOpenStackClient._server_to_record.

Example scenario_stopped : servers db_stopped !! S1 = Some web01_stopped.
Proof. vm_compute. reflexivity. Qed.

Example scenario_servers : servers db1 = <[S1 := web01]> ∅.
Proof. vm_compute. reflexivity. Qed.

Example scenario_keyed : keyed_by_id db1.
Proof.
  intros key row. rewrite scenario_servers, lookup_insert_Some, lookup_empty.
  intros [[<- <-]|[_ ?]]; done.
Qed.

Example scenario_create :
  ServerService.create svc (env 100) (ServerCreate.mk "web-01" F1 I1) seeded
  = (Return (record web01), db1).
Proof. vm_compute. reflexivity. Qed.

Example scenario_stop :
  ServerService.perform_action svc (env 101) S1 (ServerAction.mk "stop" None) db1
  = (Return (record web01_stopped), db_stopped).
Proof. vm_compute. reflexivity. Qed.

Example scenario_delete :
  ServerService.delete svc (env 102) S1 db1 = (Return tt, db_deleted).
Proof. vm_compute. reflexivity. Qed.

Lemma failed_call_changes_nothing_witness :
  serve (env 101) (Action S1 (ServerAction.mk "start" None)) db1 = db1.
Proof.
  apply (failed_call_changes_nothing (env 101)
           (Action S1 (ServerAction.mk "start" None)) db1
           (InvalidStateTransitionError "ACTIVE" "start")).
  vm_compute. reflexivity.
Defined.

Lemma rows_are_never_removed_witness :
  ∃ row',
    servers (run [(env 101, Action S1 (ServerAction.mk "stop" None));
                  (env 102, Delete S1)] db1) !! S1 = Some row'
    ∧ Server.id row' = S1
    ∧ Server.image_id row' = I1
    ∧ Server.ip_address row' = Some "10.0.48.58"
    ∧ Server.created_at row' = 100.
Proof.
  apply (rows_are_never_removed
           [(env 101, Action S1 (ServerAction.mk "stop" None)); (env 102, Delete S1)]
           db1 S1 web01).
  vm_compute. reflexivity.
Defined.

Lemma tombstone_is_final_witness :
  servers (run [(env 103, Update S1 (ServerUpdate.mk (Some "web-02")));
                (env 104, Action S1 (ServerAction.mk "start" None));
                (env 105, Delete S1)] db_deleted) !! S1
  = Some web01_deleted.
Proof.
  apply (tombstone_is_final
           [(env 103, Update S1 (ServerUpdate.mk (Some "web-02")));
            (env 104, Action S1 (ServerAction.mk "start" None));
            (env 105, Delete S1)] db_deleted S1 web01_deleted).
  - vm_compute. reflexivity.
  - reflexivity.
Defined.

Lemma only_three_statuses_arise_witness : settled (run history seeded).
Proof.
  apply (only_three_statuses_arise history seeded). left. reflexivity.
Defined.

Lemma rows_stay_keyed_by_id_witness : keyed_by_id (run history seeded).
Proof.
  apply (rows_stay_keyed_by_id history seeded).
  intros key row Hrow. simpl in Hrow. rewrite lookup_empty in Hrow. discriminate.
Defined.

Lemma references_keep_resolving_witness : references_resolve (run history seeded).
Proof.
  apply (references_keep_resolving history seeded).
  intros key row Hrow. simpl in Hrow. rewrite lookup_empty in Hrow. discriminate.
Defined.

Lemma backend_error_never_surfaces_witness :
  raised (env 103) (Action S1 (ServerAction.mk "confirm_resize" None))
    (run history seeded)
  ≠ Some (ValueError "any").
Proof.
  apply (backend_error_never_surfaces history seeded (env 103)
           (Action S1 (ServerAction.mk "confirm_resize" None)) "any").
  intros key row Hrow. simpl in Hrow. rewrite lookup_empty in Hrow. discriminate.
Defined.

Lemma create_then_get_witness :
  ServerService.get svc S1 db1 = (Return (record web01), db1).
Proof.
  exact (create_then_get (env 100) seeded (ServerCreate.mk "web-01" F1 I1)
           (record web01) db1 scenario_create).
Defined.

Lemma action_then_get_witness :
  ServerService.get svc S1 db_stopped = (Return (record web01_stopped), db_stopped).
Proof.
  exact (action_then_get (env 101) db1 S1 (ServerAction.mk "stop" None)
           (record web01_stopped) db_stopped scenario_stop).
Defined.

Lemma update_renames_witness :
  ∃ r db',
    ServerService.update svc (env 101) S1 (ServerUpdate.mk (Some "web-02")) db1
    = (Return r, db')
    ∧ ServerRecord.name r = "web-02"
    ∧ ServerRecord.updated_at r = 101.
Proof.
  destruct (update_renames (env 101) db1 S1 (ServerUpdate.mk (Some "web-02")) web01
              scenario_created ltac:(discriminate))
    as (r & db' & Hrun & Hname & Htime & _).
  exists r, db'. exact (conj Hrun (conj Hname Htime)).
Defined.

Lemma stop_then_start_witness :
  ∃ r1 db1' r2 db2,
    ServerService.perform_action svc (env 101) S1 (ServerAction.mk "stop" None) db1
    = (Return r1, db1')
    ∧ ServerRecord.status r1 = ServerStatus.SHUTOFF
    ∧ ServerService.perform_action svc (env 102) S1 (ServerAction.mk "stop" None) db1'
      = (Raise (InvalidStateTransitionError "SHUTOFF" "stop"), db1')
    ∧ ServerService.perform_action svc (env 102) S1 (ServerAction.mk "start" None) db1'
      = (Return r2, db2)
    ∧ ServerRecord.status r2 = ServerStatus.ACTIVE.
Proof.
  destruct (stop_then_start (env 101) (env 102) db1 S1 web01 scenario_created eq_refl)
    as (r1 & db1' & r2 & db2 & H1 & H2 & H3 & H4 & H5 & _).
  exists r1, db1', r2, db2. exact (conj H1 (conj H2 (conj H3 (conj H4 H5)))).
Defined.

Lemma total_follows_create_and_delete_witness :
  ∃ records total,
    ServerService.list svc 20 0 seeded = (Return (records, total), seeded)
    ∧ ∃ records',
        ServerService.list svc 5 0 db1 = (Return (records', total + 1), db1).
Proof.
  destruct (total_follows_create_and_delete (env 100) seeded 20 0)
    as (records & total & Hrun & Hcreate & _).
  - unfold in_int64. lia.
  - unfold in_int64. lia.
  - exists records, total. split; [exact Hrun|].
    apply (Hcreate (ServerCreate.mk "web-01" F1 I1) (record web01) db1 5 0).
    + unfold in_int64. lia.
    + unfold in_int64. lia.
    + exact scenario_create.
Defined.

Lemma consecutive_pages_join_witness :
  ∃ first second both total,
    ServerService.list svc 1 0 db1 = (Return (first, total), db1)
    ∧ ServerService.list svc 1 (0 + 1) db1 = (Return (second, total), db1)
    ∧ ServerService.list svc (1 + 1) 0 db1 = (Return (both, total), db1)
    ∧ (first ++ second)%list = both.
Proof.
  apply (consecutive_pages_join db1 1 1 0); first [lia | reflexivity].
Defined.


Lemma state_check_precedes_flavor_check_witness :
  ServerService.perform_action svc (env 102) S1
    (ServerAction.mk "resize" (Some "no-such-flavor")) db_stopped
  = (Raise (InvalidStateTransitionError "SHUTOFF" "resize"), db_stopped).
Proof.
  apply (state_check_precedes_flavor_check (env 102) db_stopped S1 web01_stopped
           (Some "no-such-flavor") scenario_stopped); discriminate.
Defined.

Lemma delete_then_invisible_witness :
  ServerService.get svc S1 db_deleted = (Raise (ServerNotFoundError S1), db_deleted)
  ∧ ServerService.perform_action svc (env 103) S1 (ServerAction.mk "start" None)
      db_deleted
    = (Raise (ServerNotFoundError S1), db_deleted)
  ∧ ServerService.update svc (env 103) S1 (ServerUpdate.mk None) db_deleted
    = (Raise (ServerDeletedError S1), db_deleted).
Proof.
  destruct (delete_then_invisible (env 102) (env 103) db1 S1 db_deleted
              (ServerUpdate.mk None) (ServerAction.mk "start" None) 20 0
              scenario_keyed scenario_delete) as (Hget & Hact & Hupd & _).
  exact (conj Hget (conj Hact Hupd)).
Defined.

Lemma action_frame_witness :
  ∃ row,
    servers db1 !! S1 = Some row
    ∧ ServerRecord.name (record web01_stopped) = Server.name row
    ∧ ServerRecord.status (record web01_stopped)
        ∈ [ServerStatus.ACTIVE; ServerStatus.SHUTOFF].
Proof.
  destruct (action_frame (env 101) db1 S1 (ServerAction.mk "stop" None)
              (record web01_stopped) db_stopped scenario_stop)
    as (row & Hrow & _ & Hname & _ & _ & _ & Hst & _).
  exists row. exact (conj Hrow (conj Hname Hst)).
Defined.

Lemma resize_without_flavor_witness :
  ∃ r db',
    ServerService.perform_action svc (env 101) S1 (ServerAction.mk "resize" None) db1
    = (Return r, db')
    ∧ ServerRecord.flavor_id r = F1.
Proof.
  destruct (proj1 (resize_without_flavor (env 101) db1 S1 web01 None
                     scenario_created eq_refl (or_introl eq_refl)))
    as (r & db' & Hrun & Hfl & _).
  exists r, db'. exact (conj Hrun Hfl).
Defined.

Lemma window_out_of_range_witness :
  ServerService.list svc 20 (2 ^ 63) db1 = (Raise OverflowError, db1).
Proof.
  apply (window_out_of_range db1 20 (2 ^ 63)).
  unfold in_int64. intros [_ [_ Hlt]]. lia.
Defined.



End MoreExamples.
